(** * Deferred-obligation stable-value protocol: core and Stability Pool

    A shallow embedding of [docs/pseudocode_stable.py] (the core: oracle,
    collateral-ratio levels, mint / redeem, the L3 protocol rebalance) and of
    [docs/rebalance_pool.py] (the Stability Pool: scaled shares, obligation
    index, deposit / withdraw / claim / harvest), followed by the properties
    of the specification that were checked against that code.

    Modelling decisions, all taken from the source:

    - Python [float] values are modelled by exact rationals [Q]: every
      arithmetic result and every comparison is the exact one.  Overflow,
      infinities and NaN are outside the model; equalities between computed
      amounts are stated with [==] (equality of rationals).  Where rounding
      decides a comparison of the code on ordinary inputs, module [F64]
      evaluates the same statements on binary64 numbers, as Python does.
      The operator [/] raises [ZeroDivisionError] on a zero divisor exactly
      as in Python ([pydiv]).
    - [max] and [min] are Python's built-ins: the first argument is kept
      unless a later one is strictly larger (resp. smaller).
    - The globals of the two modules live in one store ([State]), each
      written by its own module only.  The core's
      [from rebalance_pool import sp_obligation_sui, sp_quote_burn_cap,
      sp_controller_rebalance] binds the two functions, which read and write
      the pool's globals, and binds the core's own name [sp_obligation_sui]
      to the value the pool's variable has at import time, the float 0.0
      (the fallback of the [try] binds 0.0 as well).  The pool rebinds its
      variable with [+=] and [-=]; no statement rebinds the core's, although
      the comments promise a "single source of truth for obligations".  So
      [reserve_net_sui] and [check_solvency], which read the core's name, see
      [Core.sp_obligation_sui = 0] for ever.
    - A [raise] keeps every assignment made before it: an outcome carries the
      store at the moment the exception left the function.
    - [SPUser] objects are mutable records owned by the host application and
      passed by reference.  They live in a heap [users] keyed by object
      identity; an identity that was never stored denotes a freshly
      constructed [SPUser()]. *)

From Stdlib Require Import ZArith QArith Qabs Qminmax Lqa Lia List Bool PrimFloat.
From stdpp Require Import base option gmap.

Open Scope Q_scope.

(** ** Numbers *)

Definition Qltb (x y : Q) : bool := negb (Qle_bool y x).

(** [max(a, b)]: [b] replaces [a] only when [b > a]. *)
Definition pymax (a b : Q) : Q := if Qltb a b then b else a.

(** [min(a, b)]: [b] replaces [a] only when [b < a]. *)
Definition pymin (a b : Q) : Q := if Qltb b a then b else a.

(** [min(a, b, c)] scans left to right. *)
Definition pymin3 (a b c : Q) : Q := pymin (pymin a b) c.

(** ** Parameters *)

Module Params.
(* pseudocode_stable.py *)
Definition CR_T_L1 : Q := 1.306.
Definition CR_T_L2 : Q := 1.206.
Definition CR_T_L3 : Q := 1.144.
Definition CR_T_L4 : Q := 1.050.
Definition BETA_F : Q := 0.
Definition PF_FIXED : Q := 1.
Definition MAX_STALENESS_SEC : Z := 3600.
Definition MAX_REL_STEP : Q := 0.20.
Definition MAX_F_BURN_FRACTION_PER_CALL : Q := 0.50.
Definition EPS : Q := 1 # 1000000000000.   (* 1e-12 *)
(* rebalance_pool.py *)
Definition HARVEST_BOUNTY_BPS : Q := 100.
Definition SP_MAX_BURN_FRAC_CALL : Q := 0.50.
Definition BPS : Q := 10000.
End Params.
Export Params.

(** ** The store *)

(** [class SPUser] *)
Record SPUser : Type := mkSPUser {
  ftoken_balance : Q;   (* free fTokens (not in SP) *)
  sp_scaled : Q;        (* scaled shares *)
  sp_index_snap : Q     (* last index snapshot *)
}.

(** [SPUser()] *)
Definition SPUser_new : SPUser :=
  {| ftoken_balance := 0; sp_scaled := 0; sp_index_snap := 0 |}.

Definition set_ftoken_balance (v : Q) (u : SPUser) : SPUser :=
  {| ftoken_balance := v; sp_scaled := sp_scaled u; sp_index_snap := sp_index_snap u |}.
Definition set_sp_scaled (v : Q) (u : SPUser) : SPUser :=
  {| ftoken_balance := ftoken_balance u; sp_scaled := v; sp_index_snap := sp_index_snap u |}.
Definition set_sp_index_snap (v : Q) (u : SPUser) : SPUser :=
  {| ftoken_balance := ftoken_balance u; sp_scaled := sp_scaled u; sp_index_snap := v |}.

Record State : Type := mkState {
  (* core globals *)
  Nf : Q;                    (* fToken supply *)
  Nx : Q;                    (* xToken supply *)
  Pf : Q;                    (* fToken NAV *)
  Px : Q;                    (* xToken NAV, implied *)
  p_sui : Q;                 (* SUI price *)
  last_oracle_ts : Z;
  reserve_sui : Q;           (* SUI reserve balance *)
  treasury_sui : Q;
  (* pool globals *)
  sp_scale : Q;              (* global shrink factor for pro-rata burns *)
  sp_scaled_total : Q;       (* sum of user scaled shares *)
  sp_index_sui_scaled : Q;   (* cumulative SUI-per-scaled-share *)
  sp_obligation_sui : Q;     (* SUI owed to SP depositors (deferred) *)
  (* host-owned SPUser objects *)
  users : gmap nat SPUser
}.

Definition set_Nf (v : Q) (s : State) : State :=
  mkState v (Nx s) (Pf s) (Px s) (p_sui s) (last_oracle_ts s) (reserve_sui s)
    (treasury_sui s) (sp_scale s) (sp_scaled_total s) (sp_index_sui_scaled s)
    (sp_obligation_sui s) (users s).
Definition set_Pf (v : Q) (s : State) : State :=
  mkState (Nf s) (Nx s) v (Px s) (p_sui s) (last_oracle_ts s) (reserve_sui s)
    (treasury_sui s) (sp_scale s) (sp_scaled_total s) (sp_index_sui_scaled s)
    (sp_obligation_sui s) (users s).
Definition set_Px (v : Q) (s : State) : State :=
  mkState (Nf s) (Nx s) (Pf s) v (p_sui s) (last_oracle_ts s) (reserve_sui s)
    (treasury_sui s) (sp_scale s) (sp_scaled_total s) (sp_index_sui_scaled s)
    (sp_obligation_sui s) (users s).
Definition set_p_sui (v : Q) (s : State) : State :=
  mkState (Nf s) (Nx s) (Pf s) (Px s) v (last_oracle_ts s) (reserve_sui s)
    (treasury_sui s) (sp_scale s) (sp_scaled_total s) (sp_index_sui_scaled s)
    (sp_obligation_sui s) (users s).
Definition set_last_oracle_ts (v : Z) (s : State) : State :=
  mkState (Nf s) (Nx s) (Pf s) (Px s) (p_sui s) v (reserve_sui s)
    (treasury_sui s) (sp_scale s) (sp_scaled_total s) (sp_index_sui_scaled s)
    (sp_obligation_sui s) (users s).
Definition set_reserve_sui (v : Q) (s : State) : State :=
  mkState (Nf s) (Nx s) (Pf s) (Px s) (p_sui s) (last_oracle_ts s) v
    (treasury_sui s) (sp_scale s) (sp_scaled_total s) (sp_index_sui_scaled s)
    (sp_obligation_sui s) (users s).
Definition set_sp_scale (v : Q) (s : State) : State :=
  mkState (Nf s) (Nx s) (Pf s) (Px s) (p_sui s) (last_oracle_ts s) (reserve_sui s)
    (treasury_sui s) v (sp_scaled_total s) (sp_index_sui_scaled s)
    (sp_obligation_sui s) (users s).
Definition set_sp_scaled_total (v : Q) (s : State) : State :=
  mkState (Nf s) (Nx s) (Pf s) (Px s) (p_sui s) (last_oracle_ts s) (reserve_sui s)
    (treasury_sui s) (sp_scale s) v (sp_index_sui_scaled s)
    (sp_obligation_sui s) (users s).
Definition set_sp_index_sui_scaled (v : Q) (s : State) : State :=
  mkState (Nf s) (Nx s) (Pf s) (Px s) (p_sui s) (last_oracle_ts s) (reserve_sui s)
    (treasury_sui s) (sp_scale s) (sp_scaled_total s) v
    (sp_obligation_sui s) (users s).
Definition set_sp_obligation_sui (v : Q) (s : State) : State :=
  mkState (Nf s) (Nx s) (Pf s) (Px s) (p_sui s) (last_oracle_ts s) (reserve_sui s)
    (treasury_sui s) (sp_scale s) (sp_scaled_total s) (sp_index_sui_scaled s)
    v (users s).
Definition set_users (v : gmap nat SPUser) (s : State) : State :=
  mkState (Nf s) (Nx s) (Pf s) (Px s) (p_sui s) (last_oracle_ts s) (reserve_sui s)
    (treasury_sui s) (sp_scale s) (sp_scaled_total s) (sp_index_sui_scaled s)
    (sp_obligation_sui s) v.

(** The object behind a user reference. *)
Definition the_user (user : nat) (s : State) : SPUser :=
  default SPUser_new (users s !! user).

Definition put_user (user : nat) (u : SPUser) (s : State) : State :=
  set_users (<[user := u]> (users s)) s.

(** The values of the module-level assignments, with the host's user
    objects [us]. *)
Definition initial_state (us : gmap nat SPUser) : State :=
  {| Nf := 0; Nx := 0; Pf := PF_FIXED; Px := 0; p_sui := 0;
     last_oracle_ts := 0%Z; reserve_sui := 0; treasury_sui := 0;
     sp_scale := 1; sp_scaled_total := 0; sp_index_sui_scaled := 0;
     sp_obligation_sui := 0; users := us |}.

(** ** Exceptions and the store-passing monad *)

Inductive exn : Type :=
| OracleTooStale              (* "oracle too stale" *)
| OracleStepTooLarge          (* "oracle step too large" *)
| BadAmount                   (* "bad amount" *)
| InsufficientReserveNet      (* "insufficient reserve net of SP obligations" *)
| BadTarget                   (* "bad target" *)
| OracleNotSet                (* "oracle not set" *)
| InsufficientReserveForClaim (* "insufficient reserve to honor SP claim" *)
| InsufficientSPBalance       (* "insufficient SP balance" *)
| ZeroDivisionError           (* raised by [/] *)
| CallbackError (code : nat). (* anything a host callback raises *)

Inductive outcome (A : Type) : Type :=
| Returned (a : A) (s : State)
| Raised (e : exn) (s : State).
Arguments Returned {A} a s.
Arguments Raised {A} e s.

Definition M (A : Type) : Type := State -> outcome A.

Definition ret {A} (a : A) : M A := fun s => Returned a s.
Definition bind {A B} (m : M A) (k : A -> M B) : M B :=
  fun s => match m s with
           | Returned a s' => k a s'
           | Raised e s' => Raised e s'
           end.
Definition raise {A} (e : exn) : M A := fun s => Raised e s.
Definition get {A} (f : State -> A) : M A := fun s => Returned (f s) s.
Definition modify (f : State -> State) : M unit := fun s => Returned tt (f s).

Declare Scope prog_scope.
Delimit Scope prog_scope with prog.
Bind Scope prog_scope with M.
Notation "x <- m ;; k" := (bind m (fun x => k))
  (at level 100, m at next level, k at level 200, right associativity) : prog_scope.
Notation "m ;; k" := (bind m (fun _ => k))
  (at level 100, k at level 200, right associativity) : prog_scope.
Open Scope prog_scope.

(** The store an operation leaves behind, returned or raised. *)
Definition final {A} (o : outcome A) : State :=
  match o with Returned _ s => s | Raised _ s => s end.

(** Python's true division. *)
Definition pydiv (a b : Q) : M Q :=
  if Qeq_bool b 0 then raise ZeroDivisionError else ret (a / b).

(** ** Stability Pool ([rebalance_pool.py]) *)

Definition sp_total_f (s : State) : Q := sp_scaled_total s * sp_scale s.

Definition sp_quote_burn_cap (s : State) : Q := SP_MAX_BURN_FRAC_CALL * sp_total_f s.

(** Core-facing controller hook: pro-rata burn by shrinking [sp_scale], and
    indexing of the SUI owed for it.  Returns [(burned_f, indexed_sui)]. *)
Definition sp_controller_rebalance (f_burn payout_sui : Q) : M (Q * Q) :=
  f_total_pre <- get sp_total_f ;;
  if Qle_bool f_total_pre EPS || Qle_bool f_burn EPS then ret (0, 0) else
  let allowed_burn := pymin f_burn (SP_MAX_BURN_FRAC_CALL * f_total_pre) in
  if Qle_bool allowed_burn EPS then ret (0, 0) else
  sui_per_f <- pydiv payout_sui f_burn ;;
  let allowed_payout := sui_per_f * allowed_burn in
  scaled_total <- get sp_scaled_total ;;
  if Qle_bool scaled_total EPS then ret (0, 0) else
  delta <- pydiv allowed_payout scaled_total ;;
  modify (fun s => set_sp_index_sui_scaled (sp_index_sui_scaled s + delta) s) ;;
  modify (fun s => set_sp_obligation_sui (sp_obligation_sui s + allowed_payout) s) ;;
  frac <- pydiv allowed_burn f_total_pre ;;
  modify (fun s => set_sp_scale (sp_scale s * pymax 0 (1 - frac)) s) ;;
  ret (allowed_burn, allowed_payout).

(** Accrue pending SUI to be paid to [user], moving the snapshot. *)
Definition _settle_user (user : nat) : M Q :=
  s <- get id ;;
  let u := the_user user s in
  let owed := sp_scaled u * (sp_index_sui_scaled s - sp_index_snap u) in
  modify (put_user user (set_sp_index_snap (sp_index_sui_scaled s) u)) ;;
  ret (pymax 0 owed).

Definition sp_deposit (user : nat) (f_amount : Q) : M unit :=
  u <- get (the_user user) ;;
  if Qle_bool f_amount 0 || Qltb (ftoken_balance u) f_amount then raise BadAmount else
  newly <- _settle_user user ;;
  sc <- get sp_scale ;;
  scaled <- pydiv f_amount sc ;;
  modify (fun s => let u := the_user user s in
                   put_user user (set_ftoken_balance (ftoken_balance u - f_amount) u) s) ;;
  modify (fun s => let u := the_user user s in
                   put_user user (set_sp_scaled (sp_scaled u + scaled) u) s) ;;
  modify (fun s => set_sp_scaled_total (sp_scaled_total s + scaled) s).

Definition sp_withdraw (user : nat) (f_amount : Q) : M unit :=
  if Qle_bool f_amount 0 then raise BadAmount else
  newly <- _settle_user user ;;
  s <- get id ;;
  let available := sp_scaled (the_user user s) * sp_scale s in
  if Qltb (available + EPS) f_amount then raise InsufficientSPBalance else
  scaled <- pydiv f_amount (sp_scale s) ;;
  modify (fun s => let u := the_user user s in
                   put_user user (set_sp_scaled (sp_scaled u - scaled) u) s) ;;
  modify (fun s => set_sp_scaled_total (sp_scaled_total s - scaled) s) ;;
  modify (fun s => let u := the_user user s in
                   put_user user (set_ftoken_balance (ftoken_balance u + f_amount) u) s).

(** The user pulls the accrued SUI; [core_pay_sui_cb] moves it on the core
    side. *)
Definition sp_claim (user : nat) (core_pay_sui_cb : Q -> M unit) : M Q :=
  owed <- _settle_user user ;;
  if Qle_bool owed EPS then ret 0 else
  core_pay_sui_cb owed ;;
  modify (fun s => set_sp_obligation_sui (sp_obligation_sui s - owed) s) ;;
  ob <- get sp_obligation_sui ;;
  (if Qltb ob 0 then modify (set_sp_obligation_sui 0) else ret tt) ;;
  ret owed.

(** Index staking yield into the pool, less the caller's bounty (returned).
    The source's [caller_addr] argument is never read. *)
Definition sp_index_harvest (yield_sui : Q) : M Q :=
  scaled_total <- get sp_scaled_total ;;
  if Qle_bool yield_sui EPS || Qle_bool scaled_total EPS then ret 0 else
  bounty <- pydiv (yield_sui * HARVEST_BOUNTY_BPS) BPS ;;
  let to_pool := yield_sui - bounty in
  delta <- pydiv to_pool scaled_total ;;
  modify (fun s => set_sp_index_sui_scaled (sp_index_sui_scaled s + delta) s) ;;
  modify (fun s => set_sp_obligation_sui (sp_obligation_sui s + to_pool) s) ;;
  ret bounty.

(** ** Core ([pseudocode_stable.py]) *)

Definition reserve_usd (s : State) : Q := reserve_sui s * p_sui s.

(** The core module's own [sp_obligation_sui]: the value of the pool's
    variable when the core imported it, never rebound. *)
Module Core.
Definition sp_obligation_sui : Q := 0.
End Core.

(** Net of indexed-but-unpaid SP obligations, as the core sees them. *)
Definition reserve_net_sui (s : State) : Q :=
  pymax 0 (reserve_sui s - Core.sp_obligation_sui).

Definition reserve_net_usd (s : State) : Q := reserve_net_sui s * p_sui s.

Definition collateral_ratio : M Q :=
  s <- get id ;;
  let denom := pymax EPS (Nf s * Pf s) in
  pydiv (reserve_net_usd s) denom.

Definition _update_px : M unit :=
  s <- get id ;;
  if Qle_bool (Nx s) EPS then ret tt else
  q <- pydiv (reserve_usd s - Nf s * Pf s) (pymax EPS (Nx s)) ;;
  modify (set_Px (pymax 0 q)).

Definition update_from_oracle (p_new : Q) (now_ts : Z) : M unit :=
  s <- get id ;;
  (if negb (last_oracle_ts s =? 0)%Z then
     if (MAX_STALENESS_SEC <? now_ts - last_oracle_ts s)%Z then raise OracleTooStale else
     r <- pydiv p_new (pymax EPS (p_sui s)) ;;
     let rel := Qabs (r - 1) in
     if Qltb MAX_REL_STEP rel then raise OracleStepTooLarge else ret tt
   else ret tt) ;;
  modify (set_p_sui p_new) ;;
  modify (set_last_oracle_ts now_ts) ;;
  modify (set_Pf PF_FIXED) ;;
  _update_px.

Definition current_level : M nat :=
  cr <- collateral_ratio ;;
  if Qle_bool CR_T_L1 cr then ret 1%nat else
  if Qle_bool CR_T_L2 cr then ret 2%nat else
  if Qle_bool CR_T_L3 cr then ret 3%nat else
  if Qle_bool CR_T_L4 cr then ret 4%nat else
  ret 5%nat.

Definition mint_ftoken (deposit_sui : Q) : M Q :=
  if Qle_bool deposit_sui 0 then raise BadAmount else
  modify (fun s => set_reserve_sui (reserve_sui s + deposit_sui) s) ;;
  s <- get id ;;
  issued_f <- pydiv (deposit_sui * p_sui s) (Pf s) ;;
  modify (fun s => set_Nf (Nf s + issued_f) s) ;;
  _update_px ;;
  ret issued_f.

Definition redeem_ftoken (burn_f : Q) : M Q :=
  s <- get id ;;
  if Qle_bool burn_f 0 || Qltb (Nf s) burn_f then raise BadAmount else
  sui_out <- pydiv (burn_f * Pf s) (p_sui s) ;;
  if Qltb (reserve_net_sui s) sui_out then raise InsufficientReserveNet else
  modify (fun s => set_reserve_sui (reserve_sui s - sui_out) s) ;;
  modify (fun s => set_Nf (Nf s - burn_f) s) ;;
  _update_px ;;
  ret sui_out.

Definition _compute_f_burn_needed_for_target (target_cr : Q) : M Q :=
  if Qle_bool target_cr 0 then raise BadTarget else
  s <- get id ;;
  nf_target <- pydiv (reserve_net_sui s * p_sui s) (target_cr * Pf s) ;;
  ret (pymax 0 (Nf s - nf_target)).

(** Burns fToken held in the pool to push the ratio up to [target_cr]
    (default [CR_T_L1] in the source); the SUI for it is indexed, not paid.
    Returns [(burned_f, indexed_sui)]. *)
Definition protocol_rebalance_L3_to_target (target_cr : Q) : M (Q * Q) :=
  s <- get id ;;
  if Qle_bool (p_sui s) EPS then raise OracleNotSet else
  if Qle_bool (Nf s) EPS then ret (0, 0) else
  need <- _compute_f_burn_needed_for_target target_cr ;;
  if Qle_bool need EPS then ret (0, 0) else
  cap_sp <- get sp_quote_burn_cap ;;
  let f_burn := pymax 0 (pymin3 need cap_sp (Nf s)) in
  if Qle_bool f_burn EPS then ret (0, 0) else
  payout_sui <- pydiv (f_burn * Pf s) (p_sui s) ;;
  r <- sp_controller_rebalance f_burn payout_sui ;;
  let '(burned, indexed_sui) := r in
  if Qle_bool burned EPS then ret (0, 0) else
  modify (fun s => set_Nf (Nf s - burned) s) ;;
  _update_px ;;
  ret (burned, indexed_sui).

(** Placeholder of the source: nothing is raised. *)
Definition _raise_collateral_via_governance (target_sui : Q) : Q := 0.

Definition emergency_recapitalization (target_sui : Q) : M Q :=
  if Qle_bool target_sui 0 then ret 0 else
  let raised := pymin target_sui (_raise_collateral_via_governance target_sui) in
  modify (fun s => set_reserve_sui (reserve_sui s + raised) s) ;;
  _update_px ;;
  ret raised.

(** The callback the core offers to [sp_claim]. *)
Definition sp_claim_pay_sui (amount_sui : Q) : M unit :=
  if Qle_bool amount_sui 0 then ret tt else
  s <- get id ;;
  if Qltb (reserve_sui s + EPS) amount_sui
  then raise InsufficientReserveForClaim
  else modify (fun s => set_reserve_sui (reserve_sui s - amount_sui) s).

(** [check_invariant(tol)]; the source's default tolerance is 1e-6. *)
Definition check_invariant (tol : Q) (s : State) : bool :=
  let lhs := reserve_usd s in
  let rhs := Nf s * Pf s + Nx s * Px s in
  Qle_bool (Qabs (lhs - rhs)) tol.

(** "Reserve must cover SP obligations": the comparison is with the core's
    name. *)
Definition check_solvency (s : State) : bool :=
  Qle_bool Core.sp_obligation_sui (reserve_sui s + EPS).

(** ** Call sequences

    The host calls the public functions one after the other on the shared
    store.  [op] names one call with its arguments; [exec] performs it and
    keeps the store it leaves behind, whether the call returned or raised.
    [OpClaim] pays through the core's own callback [sp_claim_pay_sui]. *)

Inductive op : Type :=
| OpUpdatePrice (p_new : Q) (now_ts : Z)
| OpMint (deposit_sui : Q)
| OpRedeem (burn_f : Q)
| OpRebalance (target_cr : Q)
| OpRecap (target_sui : Q)
| OpDeposit (user : nat) (f_amount : Q)
| OpWithdraw (user : nat) (f_amount : Q)
| OpClaim (user : nat)
| OpHarvest (yield_sui : Q).

Definition exec (o : op) (s : State) : State :=
  match o with
  | OpUpdatePrice p t => final (update_from_oracle p t s)
  | OpMint d => final (mint_ftoken d s)
  | OpRedeem b => final (redeem_ftoken b s)
  | OpRebalance t => final (protocol_rebalance_L3_to_target t s)
  | OpRecap t => final (emergency_recapitalization t s)
  | OpDeposit u a => final (sp_deposit u a s)
  | OpWithdraw u a => final (sp_withdraw u a s)
  | OpClaim u => final (sp_claim u sp_claim_pay_sui s)
  | OpHarvest y => final (sp_index_harvest y s)
  end.

(** The stores after each call of a sequence, in order. *)
Fixpoint trace (s : State) (ops : list op) : list State :=
  match ops with
  | [] => []
  | o :: ops' => exec o s :: trace (exec o s) ops'
  end.

Definition run (s : State) (ops : list op) : State := fold_left (fun s o => exec o s) ops s.

(** The stores a call sequence can reach from the initial one. *)
Inductive reachable (us : gmap nat SPUser) : State -> Prop :=
| reach_init : reachable us (initial_state us)
| reach_step s o : reachable us s -> reachable us (exec o s).

(** ** Stores and quantities the properties speak about *)

(** The store [_settle_user] leaves: the user's snapshot moved to the index. *)
Definition settled (user : nat) (s : State) : State :=
  put_user user (set_sp_index_snap (sp_index_sui_scaled s) (the_user user s)) s.

(** The burn the pool allows for a request: [min(f_burn, cap * total)]. *)
Definition capped_burn (f_burn : Q) (s : State) : Q :=
  pymin f_burn (SP_MAX_BURN_FRAC_CALL * sp_total_f s).

(** The store after the pool executed a burn of [burned], indexing
    [indexed] SUI for it. *)
Definition burn_indexed (burned indexed : Q) (s : State) : State :=
  set_sp_scale (sp_scale s * pymax 0 (1 - burned / sp_total_f s))
    (set_sp_obligation_sui (sp_obligation_sui s + indexed)
       (set_sp_index_sui_scaled (sp_index_sui_scaled s + indexed / sp_scaled_total s) s)).

(** The store after a harvest credited [to_pool] SUI to the pool. *)
Definition harvest_indexed (to_pool : Q) (s : State) : State :=
  set_sp_obligation_sui (sp_obligation_sui s + to_pool)
    (set_sp_index_sui_scaled (sp_index_sui_scaled s + to_pool / sp_scaled_total s) s).

(** The burn the core requests from the pool for a target ratio:
    [max(0, min(need, cap_sp, Nf))]. *)
Definition requested_burn (target_cr : Q) (s : State) : Q :=
  pymax 0 (pymin3 (pymax 0 (Nf s - reserve_net_sui s * p_sui s / (target_cr * Pf s)))
                  (sp_quote_burn_cap s) (Nf s)).

(** What one call may do to the pool's scale and index. *)
Definition pool_step_ok (s s' : State) : Prop :=
  0 < sp_scale s' /\ sp_scale s' <= sp_scale s /\
  sp_index_sui_scaled s <= sp_index_sui_scaled s' /\
  Pf s' = PF_FIXED.

(** Mint, redeem, deposit, withdraw and claim. *)
Definition user_flow (o : op) : bool :=
  match o with
  | OpMint _ | OpRedeem _ | OpDeposit _ _ | OpWithdraw _ _ | OpClaim _ => true
  | _ => false
  end.

(** The seven calls: every one but the oracle update and the recap. *)
Definition pool_or_mint_call (o : op) : bool :=
  match o with
  | OpUpdatePrice _ _ | OpRecap _ => false
  | _ => true
  end.

(** The balance behind [check_invariant], held exactly. *)
Definition balanced (s : State) : Prop :=
  reserve_usd s == Nf s * Pf s + Nx s * Px s.

(** ** Example stores

    Concrete stores and call sequences at which the properties below are
    exercised. *)

(** A first oracle sample: price 2 at time 1000. *)
Definition oracle_sample_stored : State :=
  final (update_from_oracle 2 1000 (initial_state ∅)).

(** Reserve but no liability: a deposit made before any price was set
    issues nothing; the price then arrives. *)
Definition reserve_without_liability : State :=
  run (initial_state ∅) [OpMint 100; OpUpdatePrice 2 1000%Z].

(** Price 2, then 100 SUI minted into 200 fTokens: ratio exactly 1. *)
Definition minted_store : State :=
  run (initial_state ∅) [OpUpdatePrice 2 1000%Z; OpMint 100].

(** A pool holding 1.5e-12 fToken: above [EPS], yet half of it is not. *)
Definition dust_pool : State :=
  run (initial_state {[ 0%nat := mkSPUser 1 0 0 ]}) [OpDeposit 0 (3 # 2000000000000)].

(** Two holders of 100 fTokens each. *)
Definition two_depositors : gmap nat SPUser :=
  {[ 0%nat := mkSPUser 100 0 0; 1%nat := mkSPUser 100 0 0 ]}.

(** The pool of the specification's scenario: price 2, 100 SUI minted into
    200 fTokens, the two holders depositing 100 fTokens each. *)
Definition scenario_pool : State :=
  run (initial_state two_depositors)
      [OpUpdatePrice 2 1000%Z; OpMint 100; OpDeposit 0 100; OpDeposit 1 100].

(** After the scenario's rebalance towards a ratio of 4/3: 50 fTokens
    burned, 25 SUI indexed, index 1/8, scale 3/4. *)
Definition indexed_pool : State := run scenario_pool [OpRebalance (4 # 3)].

(** A payment executor that reports failure without moving anything. *)
Definition failing_payment (amount_sui : Q) : M unit := raise (CallbackError 1).

(** One holder of 100 fTokens, as the host hands it to the pool. *)
Definition one_holder : gmap nat SPUser := {[ 0%nat := mkSPUser 100 0 0 ]}.

(** The first depositor took 40 fTokens back out after the burn. *)
Definition partly_withdrawn_pool : State := run indexed_pool [OpWithdraw 0 40].

(** A harvest of 10 SUI indexed for one depositor, with nothing in reserve. *)
Definition unfunded_harvest_pool : State :=
  run (initial_state one_holder) [OpDeposit 0 100; OpHarvest 10].

(** The same harvest once a price is set and 100 SUI are minted. *)
Definition priced_harvest_pool : State :=
  run (initial_state one_holder)
      [OpUpdatePrice 2 1000%Z; OpMint 100; OpDeposit 0 100; OpHarvest 10].

(** ** Further stores and quantities *)

(** What [_settle_user] recognises for a user. *)
Definition accrued (user : nat) (s : State) : Q :=
  pymax 0 (sp_scaled (the_user user s) *
           (sp_index_sui_scaled s - sp_index_snap (the_user user s))).

(** The store after the pool paid [owed] through the core's callback. *)
Definition claim_paid (user : nat) (owed : Q) (s : State) : State :=
  let s1 := set_reserve_sui (reserve_sui s - owed) (settled user s) in
  if Qltb (sp_obligation_sui s - owed) 0
  then set_sp_obligation_sui 0 (set_sp_obligation_sui (sp_obligation_sui s - owed) s1)
  else set_sp_obligation_sui (sp_obligation_sui s - owed) s1.


(** The store after [sp_deposit] moved [f_amount] of the user's free
    fTokens into the pool. *)
Definition deposited (user : nat) (f_amount : Q) (s : State) : State :=
  let u := the_user user s in
  let scaled := f_amount / sp_scale s in
  set_sp_scaled_total (sp_scaled_total s + scaled)
    (put_user user
       {| ftoken_balance := ftoken_balance u - f_amount;
          sp_scaled := sp_scaled u + scaled;
          sp_index_snap := sp_index_sui_scaled s |} s).

(** The store after [sp_withdraw] moved [f_amount] of the user's pooled
    fTokens back to the free balance. *)
Definition withdrawn (user : nat) (f_amount : Q) (s : State) : State :=
  let u := the_user user s in
  let scaled := f_amount / sp_scale s in
  set_sp_scaled_total (sp_scaled_total s - scaled)
    (put_user user
       {| ftoken_balance := ftoken_balance u + f_amount;
          sp_scaled := sp_scaled u - scaled;
          sp_index_snap := sp_index_sui_scaled s |} s).

(** The value left to equity: the reserve net of obligations, at the oracle
    price, less the liability at its NAV (not clamped at 0). *)
Definition surplus (s : State) : Q :=
  (reserve_sui s - sp_obligation_sui s) * p_sui s - Nf s * Pf s.

(** Calls that leave the price and the obligations they did not pay alone:
    every one but the oracle update and the harvest. *)
Definition keeps_surplus (o : op) : bool :=
  match o with
  | OpUpdatePrice _ _ | OpHarvest _ => false
  | _ => true
  end.

(** The scaled shares of all the user records in the heap. *)
Definition scaled_sum (us : gmap nat SPUser) : Q :=
  map_fold (fun _ u acc => sp_scaled u + acc) 0 us.

(** The pool's total is the sum of its users' scaled shares. *)
Definition shares_add_up (s : State) : Prop :=
  sp_scaled_total s == scaled_sum (users s).


(** ** Stores and quantities of the conservation and reserve properties *)

(** Nothing is pending for any user record of the heap: what [_settle_user]
    would recognise is at most [EPS], the amount up to which [sp_claim] pays
    nothing. *)
Definition nothing_pending (s : State) : bool :=
  forallb (fun iu => Qle_bool (accrued (fst iu) s) EPS) (map_to_list (users s)).

(** The stores in which the user flows keep the balance: the balance holds,
    no equity is outstanding, the NAV is the fixed one, and either no price
    is set or no user has a claim pending. *)
Definition conserving (s : State) : Prop :=
  balanced s /\ Nx s <= EPS /\ Pf s = PF_FIXED /\
  (p_sui s == 0 \/ forall user, accrued user s <= EPS).

(** Price 2, 100 SUI minted into 200 fTokens, the price falling to 1.75,
    and 175 fTokens redeemed for the whole reserve: 25 fTokens are left
    with nothing behind them. *)
Definition drained_store : State :=
  run (initial_state ∅)
      [OpUpdatePrice 2 1000%Z; OpMint 100; OpUpdatePrice 1.75 2000%Z; OpRedeem 175].

(** ** The user flows on binary64 numbers

    Python's [float] is the IEEE 754 binary64 format with rounding to
    nearest, ties to even, and so are the primitive floats used here.  The
    functions below are [_settle_user], [sp_deposit] and [sp_withdraw], and
    further down [mint_ftoken] and [redeem_ftoken], once more, statement by
    statement, on those numbers: the pool's calls on the pool's four globals
    and the one user record they are given, the core's on the core's
    globals. *)
(** Decimal literals denote the nearest binary64 value, as in Python. *)
Set Warnings "-inexact-float".

Module F64.

Record SPUser : Type := mkSPUser {
  ftoken_balance : float;
  sp_scaled : float;
  sp_index_snap : float
}.

Record Pool : Type := mkPool {
  sp_scale : float;
  sp_scaled_total : float;
  sp_index_sui_scaled : float;
  sp_obligation_sui : float
}.

Definition EPS : float := 1e-12.

Inductive outcome (A : Type) : Type :=
| Returned (a : A) (p : Pool) (u : SPUser)
| Raised (e : exn) (p : Pool) (u : SPUser).
Arguments Returned {A} a p u.
Arguments Raised {A} e p u.

(** [max(a, b)]: [b] when it is strictly larger. *)
Definition pymax (a b : float) : float := if PrimFloat.ltb a b then b else a.

Definition _settle_user (p : Pool) (u : SPUser) : float * SPUser :=
  let owed := (sp_scaled u * (sp_index_sui_scaled p - sp_index_snap u))%float in
  (pymax 0 owed,
   {| ftoken_balance := ftoken_balance u; sp_scaled := sp_scaled u;
      sp_index_snap := sp_index_sui_scaled p |}).

Definition sp_deposit (f_amount : float) (p : Pool) (u : SPUser) : outcome unit :=
  if PrimFloat.leb f_amount 0 || PrimFloat.ltb (ftoken_balance u) f_amount
  then Raised BadAmount p u else
  let u1 := snd (_settle_user p u) in
  if PrimFloat.eqb (sp_scale p) 0 then Raised ZeroDivisionError p u1 else
  let scaled := (f_amount / sp_scale p)%float in
  Returned tt
    {| sp_scale := sp_scale p;
       sp_scaled_total := (sp_scaled_total p + scaled)%float;
       sp_index_sui_scaled := sp_index_sui_scaled p;
       sp_obligation_sui := sp_obligation_sui p |}
    {| ftoken_balance := (ftoken_balance u1 - f_amount)%float;
       sp_scaled := (sp_scaled u1 + scaled)%float;
       sp_index_snap := sp_index_snap u1 |}.

Definition sp_withdraw (f_amount : float) (p : Pool) (u : SPUser) : outcome unit :=
  if PrimFloat.leb f_amount 0 then Raised BadAmount p u else
  let u1 := snd (_settle_user p u) in
  let available := (sp_scaled u1 * sp_scale p)%float in
  if PrimFloat.ltb (available + EPS)%float f_amount
  then Raised InsufficientSPBalance p u1 else
  if PrimFloat.eqb (sp_scale p) 0 then Raised ZeroDivisionError p u1 else
  let scaled := (f_amount / sp_scale p)%float in
  Returned tt
    {| sp_scale := sp_scale p;
       sp_scaled_total := (sp_scaled_total p - scaled)%float;
       sp_index_sui_scaled := sp_index_sui_scaled p;
       sp_obligation_sui := sp_obligation_sui p |}
    {| ftoken_balance := (ftoken_balance u1 + f_amount)%float;
       sp_scaled := (sp_scaled u1 - scaled)%float;
       sp_index_snap := sp_index_snap u1 |}.

(** The core's mint and redemption on the same numbers: the five globals
    they read and write. *)
Record Core : Type := mkCore {
  Nf : float;
  Nx : float;
  Pf : float;
  Px : float;
  p_sui : float;
  reserve_sui : float
}.

Inductive result (A : Type) : Type :=
| Done (a : A) (c : Core)
| Failed (e : exn) (c : Core).
Arguments Done {A} a c.
Arguments Failed {A} e c.

(** The core's own [sp_obligation_sui], bound to 0.0 at import. *)
Definition core_sp_obligation_sui : float := 0.

Definition reserve_usd (c : Core) : float := (reserve_sui c * p_sui c)%float.

Definition reserve_net_sui (c : Core) : float :=
  pymax 0 (reserve_sui c - core_sp_obligation_sui)%float.

Definition set_Px (v : float) (c : Core) : Core :=
  {| Nf := Nf c; Nx := Nx c; Pf := Pf c; Px := v; p_sui := p_sui c;
     reserve_sui := reserve_sui c |}.

Definition _update_px (c : Core) : Core :=
  if PrimFloat.leb (Nx c) EPS then c else
  set_Px (pymax 0 ((reserve_usd c - Nf c * Pf c) / pymax EPS (Nx c))%float) c.

Definition mint_ftoken (deposit_sui : float) (c : Core) : result float :=
  if PrimFloat.leb deposit_sui 0 then Failed BadAmount c else
  let c1 := {| Nf := Nf c; Nx := Nx c; Pf := Pf c; Px := Px c; p_sui := p_sui c;
               reserve_sui := (reserve_sui c + deposit_sui)%float |} in
  if PrimFloat.eqb (Pf c1) 0 then Failed ZeroDivisionError c1 else
  let issued_f := (deposit_sui * p_sui c1 / Pf c1)%float in
  let c2 := {| Nf := (Nf c1 + issued_f)%float; Nx := Nx c1; Pf := Pf c1; Px := Px c1;
               p_sui := p_sui c1; reserve_sui := reserve_sui c1 |} in
  Done issued_f (_update_px c2).

Definition redeem_ftoken (burn_f : float) (c : Core) : result float :=
  if PrimFloat.leb burn_f 0 || PrimFloat.ltb (Nf c) burn_f then Failed BadAmount c else
  if PrimFloat.eqb (p_sui c) 0 then Failed ZeroDivisionError c else
  let sui_out := (burn_f * Pf c / p_sui c)%float in
  if PrimFloat.ltb (reserve_net_sui c) sui_out then Failed InsufficientReserveNet c else
  let c1 := {| Nf := (Nf c - burn_f)%float; Nx := Nx c; Pf := Pf c; Px := Px c;
               p_sui := p_sui c; reserve_sui := (reserve_sui c - sui_out)%float |} in
  Done sui_out (_update_px c1).

End F64.

(** * Properties *)

(** ** Comparisons and built-ins *)

Lemma Qle_bool_reflect (x y : Q) : reflect (x <= y) (Qle_bool x y).
Proof. apply iff_reflect. symmetry. apply Qle_bool_iff. Qed.

Lemma Qltb_reflect (x y : Q) : reflect (x < y) (Qltb x y).
Proof.
  unfold Qltb. destruct (Qle_bool_reflect y x); constructor; lra.
Qed.

Lemma Qeq_bool_reflect (x y : Q) : reflect (x == y) (Qeq_bool x y).
Proof. apply iff_reflect. symmetry. apply Qeq_bool_iff. Qed.

Ltac qcase :=
  match goal with
  | |- context [Qle_bool ?a ?b] => destruct (Qle_bool_reflect a b)
  | |- context [Qltb ?a ?b] => destruct (Qltb_reflect a b)
  | |- context [Qeq_bool ?a ?b] => destruct (Qeq_bool_reflect a b)
  end.

Lemma EPS_pos : 0 < EPS.
Proof. reflexivity. Qed.

Lemma pymax_cases (a b : Q) :
  (a < b /\ pymax a b = b) \/ (b <= a /\ pymax a b = a).
Proof. unfold pymax. qcase; [left | right]; split; auto; lra. Qed.

Lemma pymin_cases (a b : Q) :
  (b < a /\ pymin a b = b) \/ (a <= b /\ pymin a b = a).
Proof. unfold pymin. qcase; [left | right]; split; auto; lra. Qed.

Lemma pymax_lb_l (a b : Q) : a <= pymax a b.
Proof. destruct (pymax_cases a b) as [[? ->] | [? ->]]; lra. Qed.

Lemma pymax_lb_r (a b : Q) : b <= pymax a b.
Proof. destruct (pymax_cases a b) as [[? ->] | [? ->]]; lra. Qed.

Lemma pymax_EPS_pos (x : Q) : 0 < pymax EPS x.
Proof. pose proof (pymax_lb_l EPS x). pose proof EPS_pos. lra. Qed.

Lemma pydiv_ok (a b : Q) (s : State) : ~ b == 0 -> pydiv a b s = Returned (a / b) s.
Proof. intros H. unfold pydiv. qcase; [contradiction | reflexivity]. Qed.

Lemma pydiv_zero (a b : Q) (s : State) : b == 0 -> pydiv a b s = Raised ZeroDivisionError s.
Proof. intros H. unfold pydiv. qcase; [reflexivity | contradiction]. Qed.

(** Reduction of the monad's plumbing, leaving arithmetic alone. *)
Ltac mred := cbv beta iota delta [bind get modify ret raise id].

Ltac fields :=
  cbn [Nf Nx Pf Px p_sui last_oracle_ts reserve_sui treasury_sui sp_scale
       sp_scaled_total sp_index_sui_scaled sp_obligation_sui users
       set_Nf set_Pf set_Px set_p_sui set_last_oracle_ts set_reserve_sui
       set_sp_scale set_sp_scaled_total set_sp_index_sui_scaled
       set_sp_obligation_sui set_users put_user final
       ftoken_balance sp_scaled sp_index_snap
       set_ftoken_balance set_sp_scaled set_sp_index_snap fst snd].

Lemma set_Px_same (s : State) : set_Px (Px s) s = s.
Proof. destruct s; reflexivity. Qed.

(** [_update_px] never raises and writes [Px] only. *)
Lemma _update_px_writes_Px (s : State) :
  exists px, _update_px s = Returned tt (set_Px px s).
Proof.
  unfold _update_px, bind, get, id. cbn.
  qcase.
  - exists (Px s). now rewrite set_Px_same.
  - rewrite pydiv_ok.
    + eexists. reflexivity.
    + pose proof (pymax_EPS_pos (Nx s)). lra.
Qed.

(** ** Minting before any price was set *)

(** C10. In every store whose oracle price is 0 (never set), [mint_ftoken]
    with a positive deposit returns instead of raising: it adds the deposit
    to [reserve_sui], issues exactly 0 fTokens (its return value) and leaves
    [Nf] as it was.  ([Pf] is the fixed NAV, never 0.) *)
Theorem mint_at_zero_price (s : State) (d : Q) :
  p_sui s == 0 -> ~ Pf s == 0 -> 0 < d ->
  exists issued s',
    mint_ftoken d s = Returned issued s' /\
    issued == 0 /\
    reserve_sui s' == reserve_sui s + d /\
    Nf s' == Nf s.
Proof.
  intros Hp Hpf Hd. unfold mint_ftoken.
  qcase; [lra |]. mred.
  rewrite pydiv_ok by (fields; assumption).
  match goal with
  | |- context [_update_px ?t] => destruct (_update_px_writes_Px t) as [px ->]
  end.
  eexists _, _. split; [reflexivity |]. fields.
  assert (d * p_sui s / Pf s == 0) as E by (rewrite Hp; field; assumption).
  repeat split; lra.
Qed.

Lemma mint_at_zero_price_witness :
  exists issued s',
    mint_ftoken 100 (initial_state ∅) = Returned issued s' /\
    issued == 0 /\
    reserve_sui s' == reserve_sui (initial_state ∅) + 100 /\
    Nf s' == Nf (initial_state ∅).
Proof.
  apply (mint_at_zero_price (initial_state ∅) 100); cbn; [reflexivity | discriminate | reflexivity].
Defined.

(** ** Oracle updates *)

(** The checks of [update_from_oracle] on a store that already holds a
    sample, as a decision: [None] when the new sample is accepted. *)
Lemma update_from_oracle_decides (s : State) (p_new : Q) (now_ts : Z) :
  (update_from_oracle p_new now_ts s = Raised OracleTooStale s /\
   last_oracle_ts s <> 0%Z /\ (MAX_STALENESS_SEC < now_ts - last_oracle_ts s)%Z) \/
  (update_from_oracle p_new now_ts s = Raised OracleStepTooLarge s /\
   last_oracle_ts s <> 0%Z /\ (now_ts - last_oracle_ts s <= MAX_STALENESS_SEC)%Z /\
   MAX_REL_STEP < Qabs (p_new / pymax EPS (p_sui s) - 1)) \/
  (exists px,
     update_from_oracle p_new now_ts s =
       Returned tt (set_Px px (set_Pf PF_FIXED (set_last_oracle_ts now_ts (set_p_sui p_new s)))) /\
     (last_oracle_ts s = 0%Z \/
      ((now_ts - last_oracle_ts s <= MAX_STALENESS_SEC)%Z /\
       Qabs (p_new / pymax EPS (p_sui s) - 1) <= MAX_REL_STEP))).
Proof.
  unfold update_from_oracle. mred.
  destruct (Z.eqb_spec (last_oracle_ts s) 0) as [E0 | N0]; cbn [negb]; mred.
  - right; right.
    destruct (_update_px_writes_Px
                (set_Pf PF_FIXED (set_last_oracle_ts now_ts (set_p_sui p_new s))))
      as [px ->].
    exists px. auto.
  - destruct (Z.ltb_spec MAX_STALENESS_SEC (now_ts - last_oracle_ts s)) as [Hl | Hl]; mred.
    + left. auto.
    + rewrite pydiv_ok by (pose proof (pymax_EPS_pos (p_sui s)); lra).
      qcase.
      * right; left. auto.
      * right; right.
        destruct (_update_px_writes_Px
                    (set_Pf PF_FIXED (set_last_oracle_ts now_ts (set_p_sui p_new s))))
          as [px ->].
        exists px. split; [reflexivity |]. right. split; [assumption | lra].
Qed.

(** A first sample stamped 0 is stored, but leaves [last_oracle_ts] at the
    value the code takes for "no sample yet": the next update, 3601 seconds
    later and at fifty times the price, is accepted. *)
Lemma first_sample_stamped_zero_is_forgotten :
  exists s0 s1,
    update_from_oracle 2 0 (initial_state ∅) = Returned tt s0 /\
    p_sui s0 = 2 /\ last_oracle_ts s0 = 0%Z /\
    (3601 - last_oracle_ts s0 = MAX_STALENESS_SEC + 1)%Z /\
    update_from_oracle 100 3601 s0 = Returned tt s1 /\
    p_sui s1 = 100 /\ last_oracle_ts s1 = 3601%Z.
Proof.
  eexists _, _. split; [vm_compute; reflexivity |].
  repeat split; vm_compute; reflexivity.
Qed.

(** C9 (amended). Once a sample with a timestamp other than 0 is stored
    ([last_oracle_ts] is no longer 0, the code's test for "not the first
    update"), an update whose timestamp is exactly [MAX_STALENESS_SEC] after
    the stored one is accepted (its price step being within [MAX_REL_STEP]),
    one second more is refused with "oracle too stale", and a refused
    update, stale or stepping too far, leaves the whole store as it was. *)
Theorem update_from_oracle_staleness_boundary :
  (forall (s : State) (p_new : Q) (now_ts : Z),
      last_oracle_ts s <> 0%Z ->
      (now_ts - last_oracle_ts s = MAX_STALENESS_SEC)%Z ->
      Qabs (p_new / pymax EPS (p_sui s) - 1) <= MAX_REL_STEP ->
      exists s', update_from_oracle p_new now_ts s = Returned tt s' /\
                 p_sui s' = p_new /\ last_oracle_ts s' = now_ts) /\
  (forall (s : State) (p_new : Q) (now_ts : Z),
      last_oracle_ts s <> 0%Z ->
      (now_ts - last_oracle_ts s = MAX_STALENESS_SEC + 1)%Z ->
      update_from_oracle p_new now_ts s = Raised OracleTooStale s) /\
  (forall (s : State) (p_new : Q) (now_ts : Z) (e : exn) (s' : State),
      update_from_oracle p_new now_ts s = Raised e s' ->
      s' = s /\ (e = OracleTooStale \/ e = OracleStepTooLarge)).
Proof.
  split; [| split].
  - intros s p_new now_ts Hts Hdt Hrel.
    destruct (update_from_oracle_decides s p_new now_ts)
      as [(_ & _ & Hl) | [(_ & _ & _ & Hr) | (px & -> & _)]].
    + lia.
    + lra.
    + eexists. split; [reflexivity |]. fields. auto.
  - intros s p_new now_ts Hts Hdt.
    destruct (update_from_oracle_decides s p_new now_ts)
      as [(E & _) | [(_ & _ & Hl & _) | (px & _ & [H0 | (Hl & _)])]];
      [assumption | unfold MAX_STALENESS_SEC in *; lia ..].
  - intros s p_new now_ts e s' H.
    destruct (update_from_oracle_decides s p_new now_ts)
      as [(E & _) | [(E & _) | (px & E & _)]];
      rewrite E in H; inversion H; subst; auto.
Qed.

Lemma update_from_oracle_staleness_boundary_witness :
  (exists s', update_from_oracle 2.2 4600 oracle_sample_stored = Returned tt s' /\
              p_sui s' = 2.2 /\ last_oracle_ts s' = 4600%Z) /\
  update_from_oracle 2.2 4601 oracle_sample_stored =
    Raised OracleTooStale oracle_sample_stored /\
  (oracle_sample_stored = oracle_sample_stored /\
   (OracleStepTooLarge = OracleTooStale \/ OracleStepTooLarge = OracleStepTooLarge)).
Proof.
  split; [| split].
  - apply (proj1 update_from_oracle_staleness_boundary);
      [discriminate | reflexivity | vm_compute; discriminate].
  - apply (proj1 (proj2 update_from_oracle_staleness_boundary));
      [discriminate | reflexivity].
  - apply (proj2 (proj2 update_from_oracle_staleness_boundary)
             oracle_sample_stored 3 1001%Z).
    reflexivity.
Defined.

(** ** Collateral ratio and levels *)

Lemma Qdiv_le_iff (a b c : Q) : 0 < c -> (a <= b / c <-> a * c <= b).
Proof.
  intros Hc. split; intros H.
  - assert (b == b / c * c) as -> by (field; lra).
    apply Qmult_le_compat_r; lra.
  - apply Qle_shift_div_l; assumption.
Qed.

Lemma Qdiv_lt_iff (a b c : Q) : 0 < c -> (b / c < a <-> b < a * c).
Proof.
  intros Hc. pose proof (Qdiv_le_iff a b c Hc). split; intros H1.
  - apply Qnot_le_lt. intros H2. apply H in H2. lra.
  - apply Qnot_le_lt. intros H2. apply H in H2. lra.
Qed.

Lemma collateral_ratio_returns (s : State) :
  collateral_ratio s = Returned (reserve_net_usd s / pymax EPS (Nf s * Pf s)) s.
Proof.
  unfold collateral_ratio. mred.
  apply pydiv_ok. pose proof (pymax_EPS_pos (Nf s * Pf s)). lra.
Qed.

Lemma current_level_1_iff (s : State) :
  current_level s = Returned 1%nat s <->
  CR_T_L1 * pymax EPS (Nf s * Pf s) <= reserve_net_usd s.
Proof.
  unfold current_level. unfold bind at 1. rewrite collateral_ratio_returns.
  pose proof (pymax_EPS_pos (Nf s * Pf s)) as Hd.
  rewrite <- Qdiv_le_iff by assumption.
  unfold CR_T_L1, CR_T_L2, CR_T_L3, CR_T_L4 in *.
  repeat qcase; mred; split; intros H; try discriminate; try reflexivity; try lra.
Qed.

Lemma current_level_5_iff (s : State) :
  current_level s = Returned 5%nat s <->
  reserve_net_usd s < CR_T_L4 * pymax EPS (Nf s * Pf s).
Proof.
  unfold current_level. unfold bind at 1. rewrite collateral_ratio_returns.
  pose proof (pymax_EPS_pos (Nf s * Pf s)) as Hd.
  rewrite <- Qdiv_lt_iff by assumption.
  unfold CR_T_L1, CR_T_L2, CR_T_L3, CR_T_L4 in *.
  repeat qcase; mred; split; intros H; try discriminate; try reflexivity; try lra.
Qed.

(** The level of the initial store: nothing outstanding, nothing in reserve. *)
Lemma current_level_initial_store_is_5 :
  Nf (initial_state ∅) == 0 /\
  current_level (initial_state ∅) = Returned 5%nat (initial_state ∅) /\
  current_level (initial_state ∅) <> Returned 1%nat (initial_state ∅).
Proof. split; [reflexivity |]. split; [reflexivity | discriminate]. Qed.

(** C6 (amended). With no liability outstanding ([Nf <= EPS], NAV fixed at 1)
    the denominator of the ratio is [EPS], so the ratio is
    [reserve_net_usd / EPS]: the level is 1 exactly when the net reserve is
    worth at least [CR_T_L1 * EPS], and 5 exactly when it is worth less than
    [CR_T_L4 * EPS], as in the initial store or at price 0. *)
Theorem current_level_without_liability (s : State) :
  Nf s <= EPS -> Pf s == PF_FIXED ->
  collateral_ratio s = Returned (reserve_net_usd s / EPS) s /\
  (current_level s = Returned 1%nat s <-> CR_T_L1 * EPS <= reserve_net_usd s) /\
  (current_level s = Returned 5%nat s <-> reserve_net_usd s < CR_T_L4 * EPS).
Proof.
  intros Hnf Hpf. unfold PF_FIXED in Hpf.
  assert (pymax EPS (Nf s * Pf s) = EPS) as E.
  { destruct (pymax_cases EPS (Nf s * Pf s)) as [[H _] | [_ H]]; [| exact H].
    rewrite Hpf in H. lra. }
  rewrite current_level_1_iff, current_level_5_iff, collateral_ratio_returns, E.
  repeat split; auto.
Qed.

Lemma current_level_without_liability_witness :
  collateral_ratio reserve_without_liability =
    Returned (reserve_net_usd reserve_without_liability / EPS) reserve_without_liability /\
  (current_level reserve_without_liability = Returned 1%nat reserve_without_liability <->
   CR_T_L1 * EPS <= reserve_net_usd reserve_without_liability) /\
  (current_level reserve_without_liability = Returned 5%nat reserve_without_liability <->
   reserve_net_usd reserve_without_liability < CR_T_L4 * EPS).
Proof.
  apply (current_level_without_liability reserve_without_liability);
    vm_compute; [discriminate | reflexivity].
Defined.

(** ** The L3 rebalance as a no-op *)

Lemma _compute_f_burn_needed_returns (s : State) (target_cr : Q) :
  0 < target_cr -> ~ Pf s == 0 ->
  _compute_f_burn_needed_for_target target_cr s =
    Returned (pymax 0 (Nf s - reserve_net_sui s * p_sui s / (target_cr * Pf s))) s.
Proof.
  intros Ht Hpf. unfold _compute_f_burn_needed_for_target.
  qcase; [lra |]. mred.
  rewrite pydiv_ok; [reflexivity |].
  intros E. apply Qmult_integral in E. destruct E; [lra | contradiction].
Qed.

(** At or above the target ratio nothing needs burning. *)
Lemma no_need_at_target (s : State) (target_cr : Q) :
  0 < target_cr -> 0 < Pf s ->
  target_cr <= reserve_net_usd s / pymax EPS (Nf s * Pf s) ->
  pymax 0 (Nf s - reserve_net_sui s * p_sui s / (target_cr * Pf s)) = 0.
Proof.
  intros Ht Hpf Hcr.
  pose proof (pymax_EPS_pos (Nf s * Pf s)) as Hd.
  pose proof (pymax_lb_r EPS (Nf s * Pf s)) as Hd'.
  apply Qdiv_le_iff in Hcr; [| assumption].
  assert (0 < target_cr * Pf s) as Htp by nra.
  assert (Nf s <= reserve_net_sui s * p_sui s / (target_cr * Pf s)) as Hn.
  { apply Qdiv_le_iff; [assumption |]. unfold reserve_net_usd in Hcr. nra. }
  destruct (pymax_cases 0 (Nf s - reserve_net_sui s * p_sui s / (target_cr * Pf s)))
    as [[H _] | [_ H]]; [lra | exact H].
Qed.

(** With no price set the rebalance raises. *)
Lemma rebalance_without_price_raises :
  0 < CR_T_L1 /\
  protocol_rebalance_L3_to_target CR_T_L1 (initial_state ∅) =
    Raised OracleNotSet (initial_state ∅) /\
  protocol_rebalance_L3_to_target CR_T_L1 (initial_state ∅) <>
    Returned (0, 0) (initial_state ∅).
Proof. split; [reflexivity |]. split; [reflexivity | discriminate]. Qed.

(** C5 (amended). [protocol_rebalance_L3_to_target] raises "oracle not set",
    leaving the store as it was, when the price is at most [EPS].  With a
    price above [EPS] it returns [(0, 0)] and leaves the store as it was when
    [Nf <= EPS], when the computed need is at most [EPS], and (for a positive
    target and NAV) when the collateral ratio is at least the target. *)
Theorem rebalance_no_op_cases :
  (forall (s : State) (target_cr : Q),
      p_sui s <= EPS ->
      protocol_rebalance_L3_to_target target_cr s = Raised OracleNotSet s) /\
  (forall (s : State) (target_cr : Q),
      EPS < p_sui s -> Nf s <= EPS ->
      protocol_rebalance_L3_to_target target_cr s = Returned (0, 0) s) /\
  (forall (s : State) (target_cr need : Q),
      EPS < p_sui s ->
      _compute_f_burn_needed_for_target target_cr s = Returned need s ->
      need <= EPS ->
      protocol_rebalance_L3_to_target target_cr s = Returned (0, 0) s) /\
  (forall (s : State) (target_cr cr : Q),
      0 < target_cr -> EPS < p_sui s -> 0 < Pf s ->
      collateral_ratio s = Returned cr s -> target_cr <= cr ->
      protocol_rebalance_L3_to_target target_cr s = Returned (0, 0) s).
Proof.
  assert (forall (s : State) (target_cr need : Q),
      EPS < p_sui s ->
      _compute_f_burn_needed_for_target target_cr s = Returned need s ->
      need <= EPS ->
      protocol_rebalance_L3_to_target target_cr s = Returned (0, 0) s) as Hneed.
  { intros s t need Hp Hc Hn. unfold protocol_rebalance_L3_to_target. mred.
    qcase; [lra |]. qcase; [reflexivity |].
    rewrite Hc. qcase; [reflexivity | contradiction]. }
  repeat split.
  - intros s t Hp. unfold protocol_rebalance_L3_to_target. mred.
    qcase; [reflexivity | contradiction].
  - intros s t Hp Hnf. unfold protocol_rebalance_L3_to_target. mred.
    qcase; [lra |]. qcase; [reflexivity | contradiction].
  - intros s t need Hp Hc Hn. eapply Hneed; eassumption.
  - intros s t cr Ht Hp Hpf Hcr Hle.
    rewrite collateral_ratio_returns in Hcr. inversion Hcr as [E]. subst cr.
    apply (Hneed s t 0); [assumption | | pose proof EPS_pos; lra].
    rewrite _compute_f_burn_needed_returns by lra.
    now rewrite no_need_at_target.
Qed.

Lemma rebalance_no_op_cases_witness :
  protocol_rebalance_L3_to_target CR_T_L1 (initial_state ∅) =
    Raised OracleNotSet (initial_state ∅) /\
  protocol_rebalance_L3_to_target CR_T_L1 oracle_sample_stored =
    Returned (0, 0) oracle_sample_stored /\
  protocol_rebalance_L3_to_target 1 minted_store = Returned (0, 0) minted_store /\
  protocol_rebalance_L3_to_target 0.9 minted_store = Returned (0, 0) minted_store.
Proof.
  split; [| split; [| split]].
  - apply (proj1 rebalance_no_op_cases). vm_compute. discriminate.
  - apply (proj1 (proj2 rebalance_no_op_cases));
      vm_compute; [reflexivity | discriminate].
  - apply (proj1 (proj2 (proj2 rebalance_no_op_cases)) minted_store 1 0);
      [reflexivity | | vm_compute; discriminate].
    vm_compute. reflexivity.
  - eapply (proj2 (proj2 (proj2 rebalance_no_op_cases)) minted_store 0.9);
      [reflexivity | reflexivity | reflexivity
      | vm_compute; reflexivity | vm_compute; discriminate].
Defined.

(** ** The pool's burn-and-index primitive *)

(** A positive request on a non-empty pool that executes nothing: half of a
    1.5e-12 pool is below [EPS], and so is a request of 5e-13 on a pool of
    200. *)
Lemma sp_controller_rebalance_dust_executes_nothing :
  (EPS < 1 /\ EPS < sp_total_f dust_pool /\
   sp_controller_rebalance 1 1 dust_pool = Returned (0, 0) dust_pool /\
   ~ 0 == pymin 1 (SP_MAX_BURN_FRAC_CALL * sp_total_f dust_pool)) /\
  (0 < 1 # 2000000000000 /\ sp_total_f scenario_pool == 200 /\
   sp_controller_rebalance (1 # 2000000000000) (1 # 4000000000000) scenario_pool =
     Returned (0, 0) scenario_pool /\
   ~ 0 == pymin (1 # 2000000000000) (SP_MAX_BURN_FRAC_CALL * sp_total_f scenario_pool)).
Proof.
  split; (split; [reflexivity |]); (split; [reflexivity |]);
    (split; [vm_compute; reflexivity | vm_compute; discriminate]).
Qed.

(** C4 (amended). [sp_controller_rebalance] never raises and has two
    outcomes.  When the request exceeds [EPS], the capped burn
    [min(f_burn, SP_MAX_BURN_FRAC_CALL * sp_total_f)] exceeds [EPS] and the
    scaled total exceeds [EPS], it executes exactly the capped burn, scales
    the payout by [payout_sui / f_burn], adds [indexed / sp_scaled_total] to
    the index and [indexed] to the obligation, multiplies [sp_scale] by
    [1 - burned / sp_total_f] (pre-burn total), touches neither the scaled
    total nor any user record, and returns [(burned, indexed)]: the burn is
    between 0 and the request, and so is the payout when the requested
    payout is not negative (a negative one is scaled, indexed and returned
    negative).  In every other case, that is when the request, the pool's
    total, the capped burn or the scaled total is at most [EPS], it returns
    [(0, 0)] and changes nothing. *)
Theorem sp_controller_rebalance_executes (s : State) (f_burn payout_sui : Q) :
  (EPS < f_burn ->
   EPS < pymin f_burn (SP_MAX_BURN_FRAC_CALL * sp_total_f s) ->
   EPS < sp_scaled_total s ->
   exists burned indexed s',
     sp_controller_rebalance f_burn payout_sui s = Returned (burned, indexed) s' /\
     burned = pymin f_burn (SP_MAX_BURN_FRAC_CALL * sp_total_f s) /\
     indexed = payout_sui / f_burn * burned /\
     sp_index_sui_scaled s' = sp_index_sui_scaled s + indexed / sp_scaled_total s /\
     sp_obligation_sui s' = sp_obligation_sui s + indexed /\
     sp_scale s' = sp_scale s * (1 - burned / sp_total_f s) /\
     sp_scaled_total s' = sp_scaled_total s /\
     users s' = users s /\
     (0 <= burned /\ burned <= f_burn) /\
     (0 <= payout_sui -> 0 <= indexed /\ indexed <= payout_sui) /\
     (payout_sui < 0 -> payout_sui <= indexed /\ indexed < 0)) /\
  (f_burn <= EPS \/ sp_total_f s <= EPS \/
   pymin f_burn (SP_MAX_BURN_FRAC_CALL * sp_total_f s) <= EPS \/
   sp_scaled_total s <= EPS ->
   sp_controller_rebalance f_burn payout_sui s = Returned (0, 0) s).
Proof.
  pose proof EPS_pos as He. split.
  - intros Hb Hcap Hst.
    set (total := sp_total_f s) in *.
    set (burned := pymin f_burn (SP_MAX_BURN_FRAC_CALL * total)) in *.
    assert (burned <= f_burn /\ burned <= SP_MAX_BURN_FRAC_CALL * total) as [Hbf Hbt].
    { subst burned. destruct (pymin_cases f_burn (SP_MAX_BURN_FRAC_CALL * total))
        as [[? ->] | [? ->]]; lra. }
    unfold SP_MAX_BURN_FRAC_CALL in Hbt.
    assert (EPS < total) as Ht by lra.
    assert (0 < burned / total /\ burned / total <= 1 # 2) as [Hf0 Hf1].
    { split.
      - apply Qlt_shift_div_l; lra.
      - apply Qle_shift_div_r; lra. }
    assert (pymax 0 (1 - burned / total) = 1 - burned / total) as Emax.
    { destruct (pymax_cases 0 (1 - burned / total)) as [[_ E] | [H _]]; [exact E | lra]. }
    assert (payout_sui == payout_sui / f_burn * f_burn) as Epay by (field; lra).
    assert (0 <= payout_sui ->
            0 <= payout_sui / f_burn * burned /\
            payout_sui / f_burn * burned <= payout_sui) as Hidx.
    { intros Hp.
      assert (0 <= payout_sui / f_burn) as Hq by (apply Qle_shift_div_l; lra).
      set (q := payout_sui / f_burn) in *. clearbody q. split; nra. }
    assert (payout_sui < 0 ->
            payout_sui <= payout_sui / f_burn * burned /\
            payout_sui / f_burn * burned < 0) as Hneg.
    { intros Hp.
      assert (payout_sui / f_burn < 0) as Hq.
      { apply Qlt_shift_div_r; lra. }
      set (q := payout_sui / f_burn) in *. clearbody q. split; nra. }
    exists burned, (payout_sui / f_burn * burned).
    unfold sp_controller_rebalance. mred. fold total.
    do 2 (qcase; [lra |]). cbn [orb]. fold burned.
    qcase; [lra |].
    rewrite pydiv_ok by lra. qcase; [lra |].
    rewrite pydiv_ok by lra. rewrite pydiv_ok by lra.
    eexists. split; [reflexivity |]. fields. rewrite Emax.
    repeat split; try reflexivity; try lra; tauto.
  - intros H.
    unfold sp_controller_rebalance. mred.
    qcase; [reflexivity |]. qcase; [reflexivity |]. cbn [orb].
    qcase; [reflexivity |].
    rewrite pydiv_ok by lra. qcase; [reflexivity |].
    exfalso. destruct H as [H | [H | [H | H]]]; lra.
Qed.

Lemma sp_controller_rebalance_executes_witness :
  (exists burned indexed s',
     sp_controller_rebalance 50 25 scenario_pool = Returned (burned, indexed) s' /\
     burned = pymin 50 (SP_MAX_BURN_FRAC_CALL * sp_total_f scenario_pool) /\
     indexed = 25 / 50 * burned /\
     sp_index_sui_scaled s' =
       sp_index_sui_scaled scenario_pool + indexed / sp_scaled_total scenario_pool /\
     sp_obligation_sui s' = sp_obligation_sui scenario_pool + indexed /\
     sp_scale s' = sp_scale scenario_pool * (1 - burned / sp_total_f scenario_pool) /\
     sp_scaled_total s' = sp_scaled_total scenario_pool /\
     users s' = users scenario_pool /\
     (0 <= burned /\ burned <= 50) /\
     (0 <= 25 -> 0 <= indexed /\ indexed <= 25) /\
     (25 < 0 -> 25 <= indexed /\ indexed < 0)) /\
  sp_controller_rebalance 1 1 dust_pool = Returned (0, 0) dust_pool.
Proof.
  split.
  - apply (proj1 (sp_controller_rebalance_executes scenario_pool 50 25));
      vm_compute; reflexivity.
  - apply (proj2 (sp_controller_rebalance_executes dust_pool 1 1)).
    right; right; left. vm_compute. discriminate.
Defined.

(** ** User records in the heap *)

Lemma the_user_put_same (user : nat) (u : SPUser) (s : State) :
  the_user user (put_user user u s) = u.
Proof. unfold the_user, put_user. fields. now rewrite lookup_insert_eq. Qed.

Lemma the_user_put_other (user user' : nat) (u : SPUser) (s : State) :
  user <> user' -> the_user user' (put_user user u s) = the_user user' s.
Proof. intros H. unfold the_user, put_user. fields. now rewrite lookup_insert_ne. Qed.

Lemma _settle_user_returns (user : nat) (s : State) :
  _settle_user user s =
    Returned (pymax 0 (sp_scaled (the_user user s) *
                       (sp_index_sui_scaled s - sp_index_snap (the_user user s))))
             (settled user s).
Proof. reflexivity. Qed.

Ltac heap :=
  unfold settled, the_user; fields;
  rewrite ?lookup_insert_eq; cbn [from_option id]; fields.

(** ** Deposit followed by withdrawal *)

(** In exact arithmetic the round trip is exact.  For a positive amount
    within the user's free balance, on a pool whose scale is positive and a
    user whose pooled balance is not below [-EPS] (the overdraft
    [sp_withdraw] tolerates), [sp_deposit] immediately followed by
    [sp_withdraw] of the same amount both return, and restore the user's
    free balance, the user's scaled shares and the pool's scaled total.  The
    withdrawal's guard holds because [a / sp_scale * sp_scale == a]; on
    binary64 numbers that product is rounded, see below. *)
Lemma deposit_withdraw_round_trip_exact (s : State) (user : nat) (a : Q) :
  0 < a -> a <= ftoken_balance (the_user user s) ->
  0 < sp_scale s ->
  - EPS <= sp_scaled (the_user user s) * sp_scale s ->
  exists s1 s2,
    sp_deposit user a s = Returned tt s1 /\
    sp_withdraw user a s1 = Returned tt s2 /\
    ftoken_balance (the_user user s2) == ftoken_balance (the_user user s) /\
    sp_scaled (the_user user s2) == sp_scaled (the_user user s) /\
    sp_scaled_total s2 == sp_scaled_total s /\
    (forall tol, 0 <= tol -> Qabs (sp_scaled_total s2 - sp_scaled_total s) <= tol).
Proof.
  intros Ha Hbal Hsc Hsh.
  eexists _, _. split.
  { unfold sp_deposit. unfold bind at 1. unfold get at 1.
    do 2 (qcase; [lra |]). cbn [orb].
    unfold bind at 1. rewrite _settle_user_returns.
    mred. rewrite pydiv_ok by (heap; lra).
    reflexivity. }
  split.
  { unfold sp_withdraw. qcase; [lra |].
    unfold bind at 1. rewrite _settle_user_returns.
    mred. heap.
    qcase.
    - exfalso. revert q. heap. intros q.
      assert (a / sp_scale s * sp_scale s == a) as E by (field; lra).
      unfold the_user in Hsh. nra.
    - rewrite pydiv_ok by lra. reflexivity. }
  heap. unfold the_user.
  assert (sp_scaled_total s + a / sp_scale s - a / sp_scale s == sp_scaled_total s) as Et by ring.
  repeat split; try ring.
  intros tol Htol. apply Qabs_case; intros; lra.
Qed.

Lemma deposit_withdraw_round_trip_exact_witness :
  exists s1 s2,
    sp_deposit 0 30 partly_withdrawn_pool = Returned tt s1 /\
    sp_withdraw 0 30 s1 = Returned tt s2 /\
    ftoken_balance (the_user 0 s2) == ftoken_balance (the_user 0 partly_withdrawn_pool) /\
    sp_scaled (the_user 0 s2) == sp_scaled (the_user 0 partly_withdrawn_pool) /\
    sp_scaled_total s2 == sp_scaled_total partly_withdrawn_pool /\
    (forall tol, 0 <= tol ->
                 Qabs (sp_scaled_total s2 - sp_scaled_total partly_withdrawn_pool) <= tol).
Proof.
  apply (deposit_withdraw_round_trip_exact
           partly_withdrawn_pool 0 30);
    vm_compute; (reflexivity || discriminate).
Defined.

(** C8 (the code at the failing inputs). On binary64 numbers, in a pool
    whose scale a 25% burn has brought to 0.75, a user holding 1000000.1
    fTokens deposits them all: the call returns and the free balance is 0.
    The scaled share 1000000.1 / 0.75 is rounded, so that the pooled
    balance read back, [sp_scaled * sp_scale], is 1000000.0999999999, short
    of the deposit by more than [EPS]: the withdrawal of the same 1000000.1
    raises "insufficient SP balance", the free balance stays 0 and the
    scaled total stays above its value before the deposit. *)
Theorem deposit_then_withdraw_raises_in_binary64 :
  let p := F64.mkPool 0.75 200 0.125 25 in
  let u := F64.mkSPUser 1000000.1 0 0 in
  exists p1 u1,
    F64.sp_deposit 1000000.1 p u = F64.Returned tt p1 u1 /\
    F64.ftoken_balance u1 = 0%float /\
    (F64.sp_scaled u1 * F64.sp_scale p1)%float = 1000000.0999999999%float /\
    PrimFloat.ltb (F64.sp_scaled u1 * F64.sp_scale p1 + F64.EPS)%float 1000000.1 = true /\
    F64.sp_withdraw 1000000.1 p1 u1 = F64.Raised InsufficientSPBalance p1 u1 /\
    PrimFloat.ltb (F64.sp_scaled_total p) (F64.sp_scaled_total p1) = true.
Proof.
  eexists _, _. split; [vm_compute; reflexivity |].
  repeat split; vm_compute; reflexivity.
Qed.

(** ** Claims and the payment callback *)

(** [sp_claim] settles first: when the callback is invoked and raises
    without touching the store, the exception leaves [sp_claim] with the
    obligation untouched but the user's snapshot already moved to the index,
    which differs from the old snapshot. *)
Lemma sp_claim_callback_raises (s : State) (user : nat) (cb : Q -> M unit) (e : exn) :
  let u := the_user user s in
  let owed := pymax 0 (sp_scaled u * (sp_index_sui_scaled s - sp_index_snap u)) in
  EPS < owed ->
  cb owed (settled user s) = Raised e (settled user s) ->
  sp_claim user cb s = Raised e (settled user s) /\
  sp_obligation_sui (settled user s) = sp_obligation_sui s /\
  sp_scaled (the_user user (settled user s)) = sp_scaled u /\
  sp_index_snap (the_user user (settled user s)) = sp_index_sui_scaled s /\
  ~ sp_index_snap u == sp_index_sui_scaled s.
Proof.
  intros u owed Howed Hcb. pose proof EPS_pos as He.
  split.
  { unfold sp_claim. unfold bind at 1. rewrite _settle_user_returns.
    fold u. fold owed. qcase; [lra |].
    unfold bind at 1. now rewrite Hcb. }
  unfold settled. rewrite the_user_put_same. fields.
  repeat split.
  intros E. subst owed.
  destruct (pymax_cases 0 (sp_scaled u * (sp_index_sui_scaled s - sp_index_snap u)))
    as [[_ Em] | [_ Em]]; rewrite Em in Howed; [| lra].
  rewrite E in Howed. nra.
Qed.

(** A claim that settles nothing never reaches the callback, and still moves
    the snapshot. *)
Lemma sp_claim_nothing_owed (s : State) (user : nat) (cb : Q -> M unit) :
  let u := the_user user s in
  pymax 0 (sp_scaled u * (sp_index_sui_scaled s - sp_index_snap u)) <= EPS ->
  sp_claim user cb s = Returned 0 (settled user s).
Proof.
  intros u Howed. unfold sp_claim. unfold bind at 1. rewrite _settle_user_returns.
  fold u. qcase; [reflexivity | contradiction].
Qed.

(** C3 (the code at the failing inputs). In the pool of the scenario after
    its rebalance the first depositor is owed 12.5 SUI.  A claim whose
    payment callback raises leaves [sp_claim] with that exception and the
    obligation still at 25, but the depositor's snapshot has moved from 0 to
    the index 1/8: a second claim, with a working callback, finds nothing
    owed and returns 0.  The core's own callback does the same when the
    reserve cannot pay: after an unfunded harvest the claim raises
    "insufficient reserve to honor SP claim" and the snapshot has moved from
    0 to 0.099, the 9.9 SUI staying in the obligation. *)
Theorem sp_claim_failed_payment_moves_snapshot :
  (exists s',
      sp_claim 0 failing_payment indexed_pool = Raised (CallbackError 1) s' /\
      sp_obligation_sui indexed_pool == 25 /\
      sp_obligation_sui s' = sp_obligation_sui indexed_pool /\
      sp_scaled (the_user 0 s') = sp_scaled (the_user 0 indexed_pool) /\
      sp_index_snap (the_user 0 indexed_pool) == 0 /\
      sp_index_snap (the_user 0 s') == 1 # 8 /\
      sp_claim 0 sp_claim_pay_sui s' = Returned 0 s') /\
  (exists s',
      sp_claim 0 sp_claim_pay_sui unfunded_harvest_pool =
        Raised InsufficientReserveForClaim s' /\
      sp_obligation_sui s' == 9.9 /\
      sp_index_snap (the_user 0 unfunded_harvest_pool) == 0 /\
      sp_index_snap (the_user 0 s') == 0.099 /\
      sp_claim 0 sp_claim_pay_sui (exec (OpMint 100) s') =
        Returned 0 (exec (OpMint 100) s')).
Proof.
  split.
  - eexists. split; [vm_compute; reflexivity |].
    repeat split; vm_compute; reflexivity.
  - eexists. split; [vm_compute; reflexivity |].
    repeat split; vm_compute; reflexivity.
Qed.

(** ** Outcomes of the pool's and the core's indexing calls *)

Lemma sp_controller_rebalance_decides (s : State) (f_burn payout_sui : Q) :
  (sp_controller_rebalance f_burn payout_sui s = Returned (0, 0) s /\
   (sp_total_f s <= EPS \/ f_burn <= EPS \/ capped_burn f_burn s <= EPS \/
    sp_scaled_total s <= EPS)) \/
  (sp_controller_rebalance f_burn payout_sui s =
     Returned (capped_burn f_burn s, payout_sui / f_burn * capped_burn f_burn s)
              (burn_indexed (capped_burn f_burn s)
                            (payout_sui / f_burn * capped_burn f_burn s) s) /\
   EPS < sp_total_f s /\ EPS < f_burn /\ EPS < capped_burn f_burn s /\
   EPS < sp_scaled_total s).
Proof.
  pose proof EPS_pos as He.
  unfold sp_controller_rebalance. mred. fold (capped_burn f_burn s).
  qcase; [left; auto |]. qcase; [left; auto |]. cbn [orb].
  qcase; [left; auto |].
  rewrite pydiv_ok by lra.
  qcase; [left; tauto |].
  rewrite pydiv_ok by lra. fields. rewrite pydiv_ok by lra.
  right. split; [reflexivity |]. repeat split; lra.
Qed.

(** The capped burn is at most the request and at most half the pool. *)
Lemma capped_burn_bounds (s : State) (f_burn : Q) :
  capped_burn f_burn s <= f_burn /\
  capped_burn f_burn s <= (1 # 2) * sp_total_f s.
Proof.
  unfold capped_burn, SP_MAX_BURN_FRAC_CALL.
  destruct (pymin_cases f_burn (0.50 * sp_total_f s)) as [[? ->] | [? ->]]; lra.
Qed.

(** An executed burn shrinks the scale by a factor in [[1/2, 1)]. *)
Lemma shrink_factor (s : State) (f_burn : Q) :
  EPS < sp_total_f s -> EPS < capped_burn f_burn s ->
  pymax 0 (1 - capped_burn f_burn s / sp_total_f s) =
    1 - capped_burn f_burn s / sp_total_f s /\
  (1 # 2) <= 1 - capped_burn f_burn s / sp_total_f s /\
  1 - capped_burn f_burn s / sp_total_f s < 1.
Proof.
  intros Ht Hb. pose proof EPS_pos as He.
  destruct (capped_burn_bounds s f_burn) as [_ Hhalf].
  assert (0 < capped_burn f_burn s / sp_total_f s) by (apply Qlt_shift_div_l; lra).
  assert (capped_burn f_burn s / sp_total_f s <= 1 # 2) by (apply Qle_shift_div_r; lra).
  destruct (pymax_cases 0 (1 - capped_burn f_burn s / sp_total_f s))
    as [[_ E] | [H' _]]; [| lra].
  rewrite E. repeat split; lra.
Qed.

Lemma sp_index_harvest_decides (s : State) (yield_sui : Q) :
  (sp_index_harvest yield_sui s = Returned 0 s /\
   (yield_sui <= EPS \/ sp_scaled_total s <= EPS)) \/
  (sp_index_harvest yield_sui s =
     Returned (yield_sui * HARVEST_BOUNTY_BPS / BPS)
              (harvest_indexed (yield_sui - yield_sui * HARVEST_BOUNTY_BPS / BPS) s) /\
   EPS < yield_sui /\ EPS < sp_scaled_total s).
Proof.
  unfold sp_index_harvest. mred.
  qcase; [left; auto |]. qcase; [left; auto |]. cbn [orb].
  rewrite pydiv_ok by (unfold BPS; lra).
  pose proof EPS_pos. rewrite pydiv_ok by lra.
  right. split; [reflexivity |]. split; lra.
Qed.

Lemma _compute_f_burn_needed_decides (s : State) (target_cr : Q) :
  (exists e, _compute_f_burn_needed_for_target target_cr s = Raised e s) \/
  _compute_f_burn_needed_for_target target_cr s =
    Returned (pymax 0 (Nf s - reserve_net_sui s * p_sui s / (target_cr * Pf s))) s.
Proof.
  unfold _compute_f_burn_needed_for_target.
  qcase; [left; eexists; reflexivity |]. mred.
  unfold pydiv. qcase; [left; eexists; reflexivity |].
  right. reflexivity.
Qed.

Lemma protocol_rebalance_decides (s : State) (target_cr : Q) :
  (exists e, protocol_rebalance_L3_to_target target_cr s = Raised e s) \/
  protocol_rebalance_L3_to_target target_cr s = Returned (0, 0) s \/
  (exists px,
     let f_burn := requested_burn target_cr s in
     let payout_sui := f_burn * Pf s / p_sui s in
     let burned := capped_burn f_burn s in
     let indexed := payout_sui / f_burn * burned in
     protocol_rebalance_L3_to_target target_cr s =
       Returned (burned, indexed)
                (set_Px px (set_Nf (Nf s - burned) (burn_indexed burned indexed s))) /\
     EPS < p_sui s /\ EPS < f_burn /\ EPS < sp_total_f s /\ EPS < burned /\
     EPS < sp_scaled_total s).
Proof.
  pose proof EPS_pos as He.
  unfold protocol_rebalance_L3_to_target. mred.
  qcase; [left; eauto |]. qcase; [right; left; reflexivity |].
  destruct (_compute_f_burn_needed_decides s target_cr) as [[e ->] | ->];
    [left; eauto |].
  qcase; [right; left; reflexivity |].
  fold (requested_burn target_cr s).
  qcase; [right; left; reflexivity |].
  rewrite pydiv_ok by lra.
  destruct (sp_controller_rebalance_decides s (requested_burn target_cr s)
              (requested_burn target_cr s * Pf s / p_sui s))
    as [[-> _] | (-> & H1 & H2 & H3 & H4)].
  - qcase; [right; left; reflexivity | lra].
  - qcase; [lra |].
    match goal with
    | |- context [_update_px ?t] => destruct (_update_px_writes_Px t) as [px ->]
    end.
    right; right. exists px. cbn zeta. fields.
    split; [reflexivity |]. repeat split; lra.
Qed.

(** Every path of a call, one comparison at a time. *)
Ltac explore :=
  repeat (mred; fields;
          match goal with
          | |- context [pydiv _ _] => unfold pydiv
          | |- context [Qle_bool ?a ?b] => destruct (Qle_bool_reflect a b)
          | |- context [Qltb ?a ?b] => destruct (Qltb_reflect a b)
          | |- context [Qeq_bool ?a ?b] => destruct (Qeq_bool_reflect a b)
          | |- context [(?a =? ?b)%Z] => destruct (Z.eqb_spec a b)
          | |- context [(?a <? ?b)%Z] => destruct (Z.ltb_spec a b)
          end; cbn [orb negb]);
  mred; fields.

(** ** Scale and index over the lifetime of the pool *)

Lemma pool_step_ok_refl (s s' : State) :
  0 < sp_scale s -> Pf s' = PF_FIXED ->
  sp_scale s' = sp_scale s -> sp_index_sui_scaled s' = sp_index_sui_scaled s ->
  pool_step_ok s s'.
Proof. intros H0 H1 H2 H3. unfold pool_step_ok. rewrite H2, H3. repeat split; auto; lra. Qed.

Lemma exec_pool_step_ok (s : State) (o : op) :
  0 < sp_scale s -> Pf s = PF_FIXED -> pool_step_ok s (exec o s).
Proof.
  intros Hsc Hpf. pose proof EPS_pos as He.
  destruct o as [p t | d | b | t | t | u a | u a | u | y]; unfold exec.
  - unfold update_from_oracle, _update_px. explore; apply pool_step_ok_refl; auto.
  - unfold mint_ftoken, _update_px. explore; apply pool_step_ok_refl; auto.
  - unfold redeem_ftoken, _update_px. explore; apply pool_step_ok_refl; auto.
  - destruct (protocol_rebalance_decides s t) as [[e ->] | [-> | (px & E & Hp & Hb & Ht & Hc & Hs)]];
      [apply pool_step_ok_refl; auto .. |].
    cbn zeta in E. rewrite E. clear E. unfold burn_indexed, pool_step_ok. fields.
    destruct (shrink_factor s (requested_burn t s) Ht Hc) as (-> & Hlo & Hhi).
    set (f_burn := requested_burn t s) in *.
    set (burned := capped_burn f_burn s) in *.
    rewrite Hpf. unfold PF_FIXED.
    assert (0 <= f_burn * 1 / p_sui s / f_burn * burned / sp_scaled_total s).
    { apply Qle_shift_div_l; [lra |].
      assert (f_burn * 1 / p_sui s / f_burn == 1 / p_sui s) as -> by (field; lra).
      assert (0 < 1 / p_sui s) by (apply Qlt_shift_div_l; lra). nra. }
    repeat split; try nra; lra.
  - unfold emergency_recapitalization, _update_px. explore; apply pool_step_ok_refl; auto.
  - unfold sp_deposit, _settle_user. explore; apply pool_step_ok_refl; auto.
  - unfold sp_withdraw, _settle_user. explore; apply pool_step_ok_refl; auto.
  - unfold sp_claim, _settle_user, sp_claim_pay_sui. explore; apply pool_step_ok_refl; auto.
  - destruct (sp_index_harvest_decides s y) as [[-> _] | (-> & Hy & Hs)];
      [apply pool_step_ok_refl; auto |].
    unfold harvest_indexed, pool_step_ok. fields.
    unfold HARVEST_BOUNTY_BPS, BPS.
    assert (0 <= (y - y * 100 / 10000) / sp_scaled_total s).
    { apply Qle_shift_div_l; [lra |].
      assert (y * 100 / 10000 == y * (1 # 100)) as -> by field. lra. }
    repeat split; auto; lra.
Qed.

Lemma reachable_pool_invariant (us : gmap nat SPUser) (s : State) :
  reachable us s -> 0 < sp_scale s /\ Pf s = PF_FIXED.
Proof.
  induction 1 as [| s o _ [IHsc IHpf]].
  - split; reflexivity.
  - destruct (exec_pool_step_ok s o IHsc IHpf) as (H1 & _ & _ & H2). auto.
Qed.

(** C7. From every store a call sequence reaches from the initial one, and
    for every sequence of further calls, whether they return or raise:
    [sp_scale] is strictly positive before and after, is not larger after
    than before, and [sp_index_sui_scaled] is not smaller after than
    before. *)
Theorem scale_and_index_monotone (us : gmap nat SPUser) (s : State) (ops : list op) :
  reachable us s ->
  0 < sp_scale s /\
  0 < sp_scale (run s ops) /\
  sp_scale (run s ops) <= sp_scale s /\
  sp_index_sui_scaled s <= sp_index_sui_scaled (run s ops).
Proof.
  intros Hr. destruct (reachable_pool_invariant us s Hr) as [Hsc Hpf].
  split; [exact Hsc |]. clear Hr.
  revert s Hsc Hpf. unfold run.
  induction ops as [| o ops IH]; intros s Hsc Hpf; cbn [fold_left].
  - repeat split; [exact Hsc | lra | lra].
  - destruct (exec_pool_step_ok s o Hsc Hpf) as (H1 & H2 & H3 & H4).
    destruct (IH (exec o s) H1 H4) as (K1 & K2 & K3).
    repeat split; [exact K1 | lra | lra].
Qed.

Lemma scale_and_index_monotone_witness :
  0 < sp_scale scenario_pool /\
  0 < sp_scale (run scenario_pool [OpRebalance (4 # 3); OpHarvest 10; OpClaim 0]) /\
  sp_scale (run scenario_pool [OpRebalance (4 # 3); OpHarvest 10; OpClaim 0])
    <= sp_scale scenario_pool /\
  sp_index_sui_scaled scenario_pool <=
    sp_index_sui_scaled (run scenario_pool [OpRebalance (4 # 3); OpHarvest 10; OpClaim 0]).
Proof.
  apply (scale_and_index_monotone two_depositors scenario_pool
           [OpRebalance (4 # 3); OpHarvest 10; OpClaim 0]).
  unfold scenario_pool, run. cbn [fold_left].
  repeat apply reach_step. apply reach_init.
Defined.

(** The scenario's rebalance does shrink the scale and raise the index. *)
Lemma scenario_rebalance_moves_scale_and_index :
  sp_scale indexed_pool == 3 # 4 /\ sp_index_sui_scaled indexed_pool == 1 # 8 /\
  sp_obligation_sui indexed_pool == 25 /\ Nf indexed_pool == 150 /\
  reserve_sui indexed_pool == 100.
Proof. repeat split; vm_compute; reflexivity. Qed.

(** ** The calls, outcome by outcome *)

(** Every way [redeem_ftoken] fails, and what a redemption that returns did. *)
Lemma redeem_ftoken_decides (s : State) (burn_f : Q) :
  (redeem_ftoken burn_f s = Raised BadAmount s /\ (burn_f <= 0 \/ Nf s < burn_f)) \/
  (redeem_ftoken burn_f s = Raised ZeroDivisionError s /\
   0 < burn_f /\ burn_f <= Nf s /\ p_sui s == 0) \/
  (redeem_ftoken burn_f s = Raised InsufficientReserveNet s /\
   0 < burn_f /\ burn_f <= Nf s /\ ~ p_sui s == 0 /\
   reserve_net_sui s < burn_f * Pf s / p_sui s) \/
  (exists px,
     redeem_ftoken burn_f s =
       Returned (burn_f * Pf s / p_sui s)
                (set_Px px (set_Nf (Nf s - burn_f)
                   (set_reserve_sui (reserve_sui s - burn_f * Pf s / p_sui s) s))) /\
     0 < burn_f /\ burn_f <= Nf s /\ ~ p_sui s == 0 /\
     burn_f * Pf s / p_sui s <= reserve_net_sui s).
Proof.
  unfold redeem_ftoken. mred.
  destruct (Qle_bool_reflect burn_f 0) as [H0 | H0]; [left; auto |].
  destruct (Qltb_reflect (Nf s) burn_f) as [H1 | H1]; [left; auto |]. cbn [orb].
  destruct (Qeq_bool_reflect (p_sui s) 0) as [Hp | Hp].
  { rewrite pydiv_zero by assumption. right; left. repeat split; auto; lra. }
  rewrite pydiv_ok by assumption.
  destruct (Qltb_reflect (reserve_net_sui s) (burn_f * Pf s / p_sui s)) as [Hn | Hn].
  { right; right; left. repeat split; auto; lra. }
  match goal with
  | |- context [_update_px ?t] => destruct (_update_px_writes_Px t) as [px ->]
  end.
  right; right; right. exists px. fields. repeat split; auto; lra.
Qed.

(** Every outcome of the core's payment callback. *)
Lemma sp_claim_pay_sui_decides (s : State) (amount_sui : Q) :
  (sp_claim_pay_sui amount_sui s = Returned tt s /\ amount_sui <= 0) \/
  (sp_claim_pay_sui amount_sui s = Raised InsufficientReserveForClaim s /\
   0 < amount_sui /\ reserve_sui s + EPS < amount_sui) \/
  (sp_claim_pay_sui amount_sui s =
     Returned tt (set_reserve_sui (reserve_sui s - amount_sui) s) /\
   0 < amount_sui /\ amount_sui <= reserve_sui s + EPS).
Proof.
  unfold sp_claim_pay_sui.
  destruct (Qle_bool_reflect amount_sui 0) as [H | H]; [left; auto |]. mred.
  destruct (Qltb_reflect (reserve_sui s + EPS) amount_sui) as [H' | H'].
  - right; left. repeat split; auto; lra.
  - right; right. repeat split; auto; lra.
Qed.

(** [sp_claim] as one case analysis on what is owed and on the callback. *)
Lemma sp_claim_unfolds (s : State) (user : nat) (cb : Q -> M unit) :
  sp_claim user cb s =
    if Qle_bool (accrued user s) EPS then Returned 0 (settled user s)
    else match cb (accrued user s) (settled user s) with
         | Returned _ s1 =>
             let s2 := set_sp_obligation_sui (sp_obligation_sui s1 - accrued user s) s1 in
             Returned (accrued user s)
                      (if Qltb (sp_obligation_sui s2) 0
                       then set_sp_obligation_sui 0 s2 else s2)
         | Raised e s1 => Raised e s1
         end.
Proof.
  unfold sp_claim. unfold bind at 1. rewrite _settle_user_returns.
  fold (accrued user s).
  destruct (Qle_bool (accrued user s) EPS); [reflexivity |].
  unfold bind at 1. destruct (cb (accrued user s) (settled user s)); [| reflexivity].
  mred. cbn zeta.
  destruct (Qltb (sp_obligation_sui
                    (set_sp_obligation_sui (sp_obligation_sui s0 - accrued user s) s0)) 0);
    reflexivity.
Qed.

Lemma sp_claim_core_decides (s : State) (user : nat) :
  (sp_claim user sp_claim_pay_sui s = Returned 0 (settled user s) /\
   accrued user s <= EPS) \/
  (sp_claim user sp_claim_pay_sui s = Raised InsufficientReserveForClaim (settled user s) /\
   EPS < accrued user s /\ reserve_sui s + EPS < accrued user s) \/
  (sp_claim user sp_claim_pay_sui s =
     Returned (accrued user s) (claim_paid user (accrued user s) s) /\
   EPS < accrued user s /\ accrued user s <= reserve_sui s + EPS).
Proof.
  pose proof EPS_pos as He.
  rewrite sp_claim_unfolds.
  destruct (Qle_bool_reflect (accrued user s) EPS) as [H | H]; [left; auto |].
  assert (reserve_sui (settled user s) = reserve_sui s) as Er by reflexivity.
  assert (sp_obligation_sui (settled user s) = sp_obligation_sui s) as Eo by reflexivity.
  destruct (sp_claim_pay_sui_decides (settled user s) (accrued user s))
    as [(E & H1) | [(E & _ & H1) | (E & H1 & H2)]]; rewrite E; rewrite ?Er in *.
  - exfalso. lra.
  - right; left. repeat split; auto; lra.
  - right; right. split; [| split; [lra | exact H2]].
    cbn zeta. unfold claim_paid. fields. rewrite Eo. cbn zeta. reflexivity.
Qed.

(** [sp_deposit] and [sp_withdraw] as case analyses with explicit stores. *)
Lemma sp_deposit_unfolds (s : State) (user : nat) (f_amount : Q) :
  sp_deposit user f_amount s =
    if Qle_bool f_amount 0 || Qltb (ftoken_balance (the_user user s)) f_amount
    then Raised BadAmount s
    else if Qeq_bool (sp_scale s) 0
         then Raised ZeroDivisionError (settled user s)
         else Returned tt (deposited user f_amount s).
Proof.
  unfold sp_deposit. unfold bind at 1. unfold get at 1.
  destruct (Qle_bool f_amount 0 || Qltb (ftoken_balance (the_user user s)) f_amount);
    [reflexivity |].
  unfold bind at 1. rewrite _settle_user_returns.
  unfold bind at 1. unfold get at 1.
  assert (sp_scale (settled user s) = sp_scale s) as -> by reflexivity.
  unfold bind at 1. unfold pydiv.
  destruct (Qeq_bool (sp_scale s) 0); [reflexivity |].
  mred. f_equal. unfold deposited, settled, put_user, the_user. fields.
  rewrite !lookup_insert_eq. cbn [from_option id]. fields.
  rewrite !insert_insert_eq. reflexivity.
Qed.

Lemma sp_withdraw_unfolds (s : State) (user : nat) (f_amount : Q) :
  sp_withdraw user f_amount s =
    if Qle_bool f_amount 0 then Raised BadAmount s
    else if Qltb (sp_scaled (the_user user s) * sp_scale s + EPS) f_amount
         then Raised InsufficientSPBalance (settled user s)
         else if Qeq_bool (sp_scale s) 0
              then Raised ZeroDivisionError (settled user s)
              else Returned tt (withdrawn user f_amount s).
Proof.
  unfold sp_withdraw.
  destruct (Qle_bool f_amount 0); [reflexivity |].
  unfold bind at 1. rewrite _settle_user_returns.
  unfold bind at 1. unfold get at 1. unfold id.
  assert (sp_scale (settled user s) = sp_scale s) as -> by reflexivity.
  assert (sp_scaled (the_user user (settled user s)) = sp_scaled (the_user user s)) as ->.
  { unfold settled. now rewrite the_user_put_same. }
  destruct (Qltb (sp_scaled (the_user user s) * sp_scale s + EPS) f_amount);
    [reflexivity |].
  unfold bind at 1. unfold pydiv.
  destruct (Qeq_bool (sp_scale s) 0); [reflexivity |].
  mred. f_equal. unfold withdrawn, settled, put_user, the_user. fields.
  rewrite !lookup_insert_eq. cbn [from_option id]. fields.
  rewrite !insert_insert_eq. reflexivity.
Qed.

(** Nothing is recognised for a user whose snapshot is at the index. *)
Lemma accrued_at_index (user : nat) (s : State) :
  sp_index_snap (the_user user s) = sp_index_sui_scaled s -> accrued user s = 0.
Proof.
  intros E. unfold accrued. rewrite E.
  destruct (pymax_cases 0 (sp_scaled (the_user user s) *
                           (sp_index_sui_scaled s - sp_index_sui_scaled s)))
    as [[H _] | [_ H]]; [| exact H].
  exfalso.
  assert (sp_scaled (the_user user s) *
          (sp_index_sui_scaled s - sp_index_sui_scaled s) == 0) as Z by ring.
  lra.
Qed.

(** ** Solvency *)

(** C1 (the code at the failing inputs). From the initial store with one
    holder of 100 fTokens, a deposit of the 100 fTokens and a harvest of 10
    SUI, both among the seven calls, both return.  The pool then owes 9.9
    SUI and the reserve is empty: the reserve plus [EPS] does not cover the
    obligation total.  [check_solvency] answers true all the same, because
    it compares with the core's own [sp_obligation_sui], which is still 0;
    the depositor's claim then raises "insufficient reserve to honor SP
    claim". *)
Theorem harvest_indexes_beyond_the_reserve :
  forallb pool_or_mint_call [OpDeposit 0 100; OpHarvest 10] = true /\
  sp_deposit 0 100 (initial_state one_holder) =
    Returned tt (exec (OpDeposit 0 100) (initial_state one_holder)) /\
  (exists bounty,
      sp_index_harvest 10 (exec (OpDeposit 0 100) (initial_state one_holder)) =
        Returned bounty unfunded_harvest_pool /\ bounty == 0.1) /\
  sp_obligation_sui unfunded_harvest_pool == 9.9 /\
  reserve_sui unfunded_harvest_pool == 0 /\
  ~ sp_obligation_sui unfunded_harvest_pool <= reserve_sui unfunded_harvest_pool + EPS /\
  check_solvency unfunded_harvest_pool = true /\
  (exists s', sp_claim 0 sp_claim_pay_sui unfunded_harvest_pool =
                Raised InsufficientReserveForClaim s').
Proof.
  split; [reflexivity |].
  split; [vm_compute; reflexivity |].
  split; [eexists; split; vm_compute; reflexivity |].
  split; [vm_compute; reflexivity |].
  split; [vm_compute; reflexivity |].
  split; [vm_compute; intros H; apply H; reflexivity |].
  split; [vm_compute; reflexivity |].
  eexists. vm_compute. reflexivity.
Qed.

(** ** Value conservation *)

Lemma balanced_conserves_value (s : State) (tol : Q) :
  0 <= tol -> balanced s -> check_invariant tol s = true.
Proof.
  intros Htol Hb. unfold check_invariant. apply Qle_bool_iff.
  unfold balanced in Hb. apply Qabs_case; intros; lra.
Qed.

Lemma mint_keeps_balance (s : State) (d : Q) :
  Nx s <= EPS -> Pf s = PF_FIXED -> balanced s ->
  forall v s', mint_ftoken d s = Returned v s' -> balanced s'.
Proof.
  intros Hnx Hpf Hb v s'. unfold balanced, reserve_usd in *.
  unfold mint_ftoken, _update_px.
  explore; intros H; inversion H; subst; fields; try lra.
  rewrite Hpf in *. unfold PF_FIXED in *.
  assert (d * p_sui s / 1 == d * p_sui s) as -> by field. lra.
Qed.

Lemma redeem_keeps_balance (s : State) (b : Q) :
  Nx s <= EPS -> Pf s = PF_FIXED -> balanced s ->
  forall v s', redeem_ftoken b s = Returned v s' -> balanced s'.
Proof.
  intros Hnx Hpf Hb v s'. unfold balanced, reserve_usd in *.
  unfold redeem_ftoken, _update_px.
  explore; intros H; inversion H; subst; fields; try lra.
  rewrite Hpf in *. unfold PF_FIXED in *.
  assert ((reserve_sui s - b * 1 / p_sui s) * p_sui s == reserve_sui s * p_sui s - b) as ->
      by (field; assumption).
  lra.
Qed.

(** A user that is not in the heap is a fresh [SPUser()]: nothing accrues
    on no shares. *)
Lemma accrued_fresh_user (user : nat) (s : State) :
  users s !! user = None -> accrued user s <= EPS.
Proof.
  intros H. pose proof EPS_pos as He. unfold accrued, the_user. rewrite H.
  cbn [from_option SPUser_new sp_scaled sp_index_snap].
  destruct (pymax_cases 0 (0 * (sp_index_sui_scaled s - 0))) as [[H1 _] | [_ ->]];
    [| lra].
  exfalso. assert (0 * (sp_index_sui_scaled s - 0) == 0) as Z by ring. lra.
Qed.

Lemma nothing_pending_spec (s : State) :
  nothing_pending s = true -> forall user, accrued user s <= EPS.
Proof.
  intros H user. unfold nothing_pending in H.
  rewrite List.forallb_forall in H.
  destruct (users s !! user) as [u |] eqn:E.
  - apply Qle_bool_iff. apply (H (user, u)).
    apply list_elem_of_In. apply elem_of_map_to_list. exact E.
  - apply accrued_fresh_user. exact E.
Qed.

(** Settling one user leaves nothing pending for that user and changes
    nothing for the others, as long as the index stays where it is. *)
Lemma pending_after_settling (user : nat) (u' : SPUser) (s s' : State) :
  sp_index_sui_scaled s' = sp_index_sui_scaled s ->
  users s' = <[user := u']> (users s) ->
  sp_index_snap u' = sp_index_sui_scaled s ->
  (forall x, accrued x s <= EPS) -> forall x, accrued x s' <= EPS.
Proof.
  intros Hi Hu Hs H x. pose proof EPS_pos as He.
  destruct (decide (x = user)) as [-> | Hne].
  - rewrite (accrued_at_index user s'); [lra |].
    unfold the_user. rewrite Hu, lookup_insert_eq. cbn [from_option id]. congruence.
  - specialize (H x). unfold accrued, the_user in *.
    rewrite Hu, Hi, lookup_insert_ne by auto. exact H.
Qed.

Lemma conserving_pool_step (user : nat) (u' : SPUser) (s s' : State) :
  reserve_sui s' = reserve_sui s -> p_sui s' = p_sui s ->
  Nf s' = Nf s -> Pf s' = Pf s -> Nx s' = Nx s -> Px s' = Px s ->
  sp_index_sui_scaled s' = sp_index_sui_scaled s ->
  users s' = <[user := u']> (users s) ->
  sp_index_snap u' = sp_index_sui_scaled s ->
  conserving s -> conserving s'.
Proof.
  intros Er Ep Enf Epf Enx Epx Ei Eu Es (Hb & Hnx & Hpf & Hpend).
  unfold conserving, balanced, reserve_usd in *.
  rewrite Er, Ep, Enf, Epf, Enx, Epx.
  repeat split; auto.
  destruct Hpend as [Hp | Hp]; [left; exact Hp | right].
  eapply pending_after_settling; eauto.
Qed.

Lemma conserving_settled (user : nat) (s : State) :
  conserving s -> conserving (settled user s).
Proof.
  apply (conserving_pool_step user
           (set_sp_index_snap (sp_index_sui_scaled s) (the_user user s)));
    reflexivity.
Qed.

Lemma conserving_deposited (user : nat) (a : Q) (s : State) :
  conserving s -> conserving (deposited user a s).
Proof.
  apply (conserving_pool_step user
           {| ftoken_balance := ftoken_balance (the_user user s) - a;
              sp_scaled := sp_scaled (the_user user s) + a / sp_scale s;
              sp_index_snap := sp_index_sui_scaled s |});
    reflexivity.
Qed.

Lemma conserving_withdrawn (user : nat) (a : Q) (s : State) :
  conserving s -> conserving (withdrawn user a s).
Proof.
  apply (conserving_pool_step user
           {| ftoken_balance := ftoken_balance (the_user user s) + a;
              sp_scaled := sp_scaled (the_user user s) - a / sp_scale s;
              sp_index_snap := sp_index_sui_scaled s |});
    reflexivity.
Qed.

(** A claim is paid only when something is pending, which in a conserving
    store means that no price is set: the SUI then leaves a reserve that is
    worth nothing yet. *)
Lemma conserving_claim_paid (user : nat) (s : State) :
  EPS < accrued user s -> conserving s ->
  conserving (claim_paid user (accrued user s) s).
Proof.
  intros Hacc (Hb & Hnx & Hpf & Hpend).
  destruct Hpend as [Hp | Hp]; [| specialize (Hp user); lra].
  unfold conserving, balanced, reserve_usd in *.
  assert (forall s1, (reserve_sui s1 = reserve_sui s - accrued user s) ->
            p_sui s1 = p_sui s -> Nf s1 = Nf s -> Pf s1 = Pf s -> Nx s1 = Nx s ->
            Px s1 = Px s ->
            reserve_sui s1 * p_sui s1 == Nf s1 * Pf s1 + Nx s1 * Px s1 /\
            Nx s1 <= EPS /\ Pf s1 = PF_FIXED /\
            (p_sui s1 == 0 \/ forall x, accrued x s1 <= EPS)) as K.
  { intros s1 Er Ep Enf Epf Enx Epx. rewrite Er, Ep, Enf, Epf, Enx, Epx.
    repeat split; auto.
    rewrite Hp in Hb. rewrite Hp. rewrite <- Hb. ring. }
  unfold claim_paid. cbn zeta.
  destruct (Qltb (sp_obligation_sui s - accrued user s) 0); apply K; reflexivity.
Qed.

Lemma exec_keeps_conserving (s : State) (o : op) :
  user_flow o = true -> conserving s -> conserving (exec o s).
Proof.
  intros Ho Hc.
  destruct o as [p t | d | b | t | t | u a | u a | u | y]; try discriminate Ho;
    unfold exec.
  - destruct Hc as (Hb & Hnx & Hpf & Hpend).
    unfold conserving, balanced, reserve_usd in *.
    unfold mint_ftoken, _update_px.
    explore; try (rewrite Hpf in *; unfold PF_FIXED in *);
      repeat split; auto; try lra.
    assert (d * p_sui s / 1 == d * p_sui s) as -> by field. lra.
  - destruct Hc as (Hb & Hnx & Hpf & Hpend).
    unfold conserving, balanced, reserve_usd in *.
    unfold redeem_ftoken, _update_px.
    explore; try (rewrite Hpf in *; unfold PF_FIXED in *);
      repeat split; auto; try lra.
    assert ((reserve_sui s - b * 1 / p_sui s) * p_sui s == reserve_sui s * p_sui s - b) as ->
        by (field; assumption).
    lra.
  - rewrite sp_deposit_unfolds.
    destruct (Qle_bool a 0 || Qltb (ftoken_balance (the_user u s)) a); [exact Hc |].
    destruct (Qeq_bool (sp_scale s) 0); cbn [final];
      [apply conserving_settled | apply conserving_deposited]; exact Hc.
  - rewrite sp_withdraw_unfolds.
    destruct (Qle_bool a 0); [exact Hc |].
    destruct (Qltb (sp_scaled (the_user u s) * sp_scale s + EPS) a);
      [apply conserving_settled; exact Hc |].
    destruct (Qeq_bool (sp_scale s) 0); cbn [final];
      [apply conserving_settled | apply conserving_withdrawn]; exact Hc.
  - destruct (sp_claim_core_decides s u) as [(-> & _) | [(-> & _) | (-> & H1 & _)]];
      cbn [final].
    + apply conserving_settled; exact Hc.
    + apply conserving_settled; exact Hc.
    + apply conserving_claim_paid; assumption.
Qed.

Lemma trace_keeps_conserving (ops : list op) : forall s : State,
  forallb user_flow ops = true -> conserving s ->
  Forall conserving (trace s ops).
Proof.
  induction ops as [| o ops IH]; intros s Hops Hs; cbn [trace].
  - constructor.
  - cbn [forallb] in Hops. apply andb_true_iff in Hops as [Ho Hops].
    pose proof (exec_keeps_conserving s o Ho Hs) as Hs'.
    constructor; [exact Hs' | apply IH; assumption].
Qed.

(** The initial store is one of them, whatever user records the host
    holds. *)
Lemma initial_state_conserving (us : gmap nat SPUser) : conserving (initial_state us).
Proof.
  pose proof EPS_pos as He.
  unfold conserving, balanced, reserve_usd. cbn.
  split; [reflexivity |]. split; [lra |]. split; [reflexivity |].
  left. reflexivity.
Qed.

(** C2. From the initial store, and more generally from every store in
    which the balance [reserve_sui * p_sui == Nf * Pf + Nx * Px] holds, no
    equity is outstanding, the NAV is the fixed one and either no price is
    set or no user has a claim pending, every sequence of mint, redeem,
    deposit, withdraw and claim calls (the claims paid through the core's
    callback) leaves [check_invariant] true within every tolerance
    [tol >= 0] after every call, whether the call returned or raised: a mint
    adds [deposit_sui * p_sui] to both sides, a redemption takes [burn_f]
    from both, and the pool's calls move neither. *)
Theorem value_conserved_by_user_flows (s : State) (ops : list op) (tol : Q) :
  balanced s -> Nx s <= EPS -> Pf s = PF_FIXED ->
  p_sui s == 0 \/ nothing_pending s = true ->
  0 <= tol ->
  forallb user_flow ops = true ->
  Forall (fun s' => check_invariant tol s' = true) (trace s ops).
Proof.
  intros Hb Hnx Hpf Hpend Htol Hops.
  assert (conserving s) as H0.
  { repeat split; auto.
    destruct Hpend as [Hp | Hp]; [left; exact Hp | right].
    apply nothing_pending_spec. exact Hp. }
  pose proof (trace_keeps_conserving ops s Hops H0) as H.
  eapply Forall_impl; [exact H |].
  intros s' (Hb' & _). apply balanced_conserves_value; assumption.
Qed.

Lemma value_conserved_by_user_flows_witness :
  Forall (fun s' => check_invariant (1 # 1000000) s' = true)
         (trace scenario_pool
                [OpMint 50; OpRedeem 30; OpWithdraw 0 40; OpClaim 0; OpDeposit 0 10;
                 OpRedeem 1000; OpClaim 1]) /\
  Forall (fun s' => check_invariant (1 # 1000000) s' = true)
         (trace (initial_state two_depositors)
                [OpMint 100; OpDeposit 0 50; OpWithdraw 0 20; OpClaim 0; OpMint 7;
                 OpDeposit 1 100]).
Proof.
  split.
  - apply (value_conserved_by_user_flows scenario_pool);
      [vm_compute; reflexivity | vm_compute; discriminate | vm_compute; reflexivity
      | right; vm_compute; reflexivity | vm_compute; discriminate | reflexivity].
  - apply (value_conserved_by_user_flows (initial_state two_depositors));
      [vm_compute; reflexivity | vm_compute; discriminate | reflexivity
      | left; reflexivity | vm_compute; discriminate | reflexivity].
Defined.

(** With a harvest in the sequence a claim is pending at a set price: paying
    it takes SUI out of the reserve without any supply changing. *)
Lemma claim_breaks_conservation_once_priced :
  check_invariant (1 # 1000000) priced_harvest_pool = true /\
  (exists owed s',
      sp_claim 0 sp_claim_pay_sui priced_harvest_pool = Returned owed s' /\
      owed == 9.9 /\
      check_invariant (1 # 1000000) s' = false).
Proof.
  split; [vm_compute; reflexivity |].
  eexists _, _. split; [vm_compute; reflexivity |].
  split; vm_compute; reflexivity.
Qed.

(** * Further properties of the code *)

(** ** Levels and the oracle *)

(** X1. [current_level] never raises and never touches the store; it
    returns a level between 1 and 5 that depends on the collateral ratio
    alone, each threshold including its lower bound: 1 iff the ratio is at
    least 1.306, 2 iff it is in [[1.206, 1.306)], 3 iff in [[1.144, 1.206)],
    4 iff in [[1.050, 1.144)], 5 iff below 1.050. *)
Theorem current_level_thresholds (s : State) :
  exists cr lvl,
    collateral_ratio s = Returned cr s /\
    current_level s = Returned lvl s /\
    (1 <= lvl <= 5)%nat /\
    (lvl = 1%nat <-> CR_T_L1 <= cr) /\
    (lvl = 2%nat <-> CR_T_L2 <= cr /\ cr < CR_T_L1) /\
    (lvl = 3%nat <-> CR_T_L3 <= cr /\ cr < CR_T_L2) /\
    (lvl = 4%nat <-> CR_T_L4 <= cr /\ cr < CR_T_L3) /\
    (lvl = 5%nat <-> cr < CR_T_L4).
Proof.
  exists (reserve_net_usd s / pymax EPS (Nf s * Pf s)).
  unfold current_level. unfold bind at 1.
  rewrite collateral_ratio_returns.
  generalize (reserve_net_usd s / pymax EPS (Nf s * Pf s)). intros cr.
  unfold CR_T_L1, CR_T_L2, CR_T_L3, CR_T_L4.
  repeat qcase; mred; eexists; (split; [reflexivity |]); (split; [reflexivity |]);
    (split; [lia |]); repeat split; intros; try lia; try lra; try discriminate;
    exfalso; lra.
Qed.



(** X3. [update_from_oracle] accepts a sample exactly when no sample is
    stored yet ([last_oracle_ts = 0]) or the sample is at most
    [MAX_STALENESS_SEC] newer than the stored one (an older timestamp passes)
    and its relative step is at most [MAX_REL_STEP].  An accepted sample sets
    the price and the timestamp, reasserts [Pf], and leaves supplies, reserve
    and every pool variable and user record alone; a refused one raises
    "oracle too stale" or "oracle step too large" with the store unchanged. *)
Theorem update_from_oracle_accepts_or_refuses (s : State) (p_new : Q) (now_ts : Z) :
  let accepted :=
    last_oracle_ts s = 0%Z \/
    ((now_ts - last_oracle_ts s <= MAX_STALENESS_SEC)%Z /\
     Qabs (p_new / pymax EPS (p_sui s) - 1) <= MAX_REL_STEP) in
  (accepted /\
   exists s', update_from_oracle p_new now_ts s = Returned tt s' /\
     p_sui s' = p_new /\ last_oracle_ts s' = now_ts /\ Pf s' = PF_FIXED /\
     Nf s' = Nf s /\ Nx s' = Nx s /\ reserve_sui s' = reserve_sui s /\
     sp_scale s' = sp_scale s /\ sp_scaled_total s' = sp_scaled_total s /\
     sp_index_sui_scaled s' = sp_index_sui_scaled s /\
     sp_obligation_sui s' = sp_obligation_sui s /\ users s' = users s) \/
  (~ accepted /\
   (update_from_oracle p_new now_ts s = Raised OracleTooStale s \/
    update_from_oracle p_new now_ts s = Raised OracleStepTooLarge s)).
Proof.
  cbn zeta.
  destruct (update_from_oracle_decides s p_new now_ts)
    as [(E & Hts & Hl) | [(E & Hts & Hl & Hr) | (px & E & H)]]; rewrite E.
  - right. split; [| left; reflexivity].
    intros [H | [H _]]; [contradiction | lia].
  - right. split; [| right; reflexivity].
    intros [H | [_ H]]; [contradiction | lra].
  - left. split; [exact H |]. eexists. split; [reflexivity |].
    fields. repeat split; reflexivity.
Qed.

(** ** Redemption and minting *)

Lemma redeem_ftoken_failure_is_atomic_aux (s s' : State) (burn_f : Q) (e : exn) :
  redeem_ftoken burn_f s = Raised e s' -> s' = s.
Proof.
  intros H.
  destruct (redeem_ftoken_decides s burn_f)
    as [(E & _) | [(E & _) | [(E & _) | (px & E & _)]]];
    rewrite E in H; inversion H; reflexivity.
Qed.

(** X4. A redemption that raises leaves the store exactly as it was, and
    raises "bad amount" (amount not positive or above the supply),
    [ZeroDivisionError] (price 0) or "insufficient reserve net of SP
    obligations" (payout above the net reserve). *)
Theorem redeem_ftoken_failure_is_atomic (s s' : State) (burn_f : Q) (e : exn) :
  redeem_ftoken burn_f s = Raised e s' ->
  s' = s /\
  ((e = BadAmount /\ (burn_f <= 0 \/ Nf s < burn_f)) \/
   (e = ZeroDivisionError /\ p_sui s == 0) \/
   (e = InsufficientReserveNet /\ reserve_net_sui s < burn_f * Pf s / p_sui s)).
Proof.
  intros H.
  destruct (redeem_ftoken_decides s burn_f)
    as [(E & H1) | [(E & _ & _ & H1) | [(E & _ & _ & _ & H1) | (px & E & _)]]];
    rewrite E in H; inversion H; subst; auto 6.
Qed.

Lemma redeem_ftoken_failure_is_atomic_witness :
  minted_store = minted_store /\
  ((BadAmount = BadAmount /\ (1000 <= 0 \/ Nf minted_store < 1000)) \/
   (BadAmount = ZeroDivisionError /\ p_sui minted_store == 0) \/
   (BadAmount = InsufficientReserveNet /\
    reserve_net_sui minted_store < 1000 * Pf minted_store / p_sui minted_store)).
Proof.
  apply (redeem_ftoken_failure_is_atomic minted_store minted_store 1000 BadAmount).
  vm_compute. reflexivity.
Defined.

(** X5. A redemption that returns paid [burn_f * Pf / p_sui], took that
    from the reserve and [burn_f] from the supply, left the pool's
    obligations alone, and paid no more than [reserve_net_sui], which is the
    whole reserve: after a positive payout the reserve is not negative. *)
Theorem redeem_ftoken_never_overdraws_reserve (s s' : State) (burn_f sui_out : Q) :
  redeem_ftoken burn_f s = Returned sui_out s' ->
  sui_out = burn_f * Pf s / p_sui s /\
  reserve_sui s' = reserve_sui s - sui_out /\
  Nf s' = Nf s - burn_f /\
  sp_obligation_sui s' = sp_obligation_sui s /\
  sui_out <= reserve_net_sui s /\
  (0 < sui_out -> 0 <= reserve_sui s').
Proof.
  intros H.
  destruct (redeem_ftoken_decides s burn_f)
    as [(E & H1) | [(E & _ & _ & H1) | [(E & _ & _ & _ & H1) | (px & E & _ & _ & _ & Hn)]]];
    rewrite E in H; inversion H; subst; clear H.
  fields. repeat split; auto.
  intros Hpos. unfold reserve_net_sui, Core.sp_obligation_sui in Hn.
  destruct (pymax_cases 0 (reserve_sui s - 0)) as [[_ Em] | [_ Em]];
    rewrite Em in Hn; lra.
Qed.

Lemma redeem_ftoken_never_overdraws_reserve_witness :
  let s := priced_harvest_pool in
  let s' := exec (OpRedeem 200) priced_harvest_pool in
  let sui_out := 200 * Pf s / p_sui s in
  sui_out = 200 * Pf s / p_sui s /\
  reserve_sui s' = reserve_sui s - sui_out /\
  Nf s' = Nf s - 200 /\
  sp_obligation_sui s' = sp_obligation_sui s /\
  sui_out <= reserve_net_sui s /\
  (0 < sui_out -> 0 <= reserve_sui s').
Proof.
  apply (redeem_ftoken_never_overdraws_reserve
           priced_harvest_pool (exec (OpRedeem 200) priced_harvest_pool) 200
           (200 * Pf priced_harvest_pool / p_sui priced_harvest_pool)).
  vm_compute. reflexivity.
Defined.

(** X6. At the fixed NAV, when a mint returns and the redemption of what
    it issued returns as well, the redemption pays exactly the deposit back
    and reserve and supply are what they were before the mint. *)
Theorem mint_then_redeem_round_trip
        (s s1 s2 : State) (d issued sui_out : Q) :
  Pf s = PF_FIXED ->
  mint_ftoken d s = Returned issued s1 ->
  redeem_ftoken issued s1 = Returned sui_out s2 ->
  issued == d * p_sui s /\
  sui_out == d /\
  reserve_sui s2 == reserve_sui s /\
  Nf s2 == Nf s.
Proof.
  intros Hpf Hm Hr.
  assert (exists px, s1 = set_Px px (set_Nf (Nf s + issued)
                                   (set_reserve_sui (reserve_sui s + d) s)) /\
                     issued = d * p_sui s / Pf s) as (px & -> & Ei).
  { revert Hm. unfold mint_ftoken.
    destruct (Qle_bool d 0); [discriminate |]. mred. fields.
    unfold pydiv. destruct (Qeq_bool (Pf s) 0); [discriminate |]. mred. fields.
    match goal with
    | |- context [_update_px ?t] => destruct (_update_px_writes_Px t) as [px ->]
    end.
    intros H. inversion H; subst. exists px. split; reflexivity. }
  destruct (redeem_ftoken_decides
              (set_Px px (set_Nf (Nf s + issued) (set_reserve_sui (reserve_sui s + d) s)))
              issued)
    as [(E & _) | [(E & _) | [(E & _) | (px' & E & _ & _ & Hp & _)]]];
    rewrite E in Hr; inversion Hr; subst; clear Hr E.
  revert Hp. fields. rewrite Hpf. unfold PF_FIXED. intros Hp.
  repeat split; field; lra.
Qed.

Lemma mint_then_redeem_round_trip_witness :
  let s := indexed_pool in
  let issued := 10 * p_sui s / Pf s in
  let s1 := exec (OpMint 10) s in
  let sui_out := issued * Pf s1 / p_sui s1 in
  let s2 := exec (OpRedeem issued) s1 in
  issued == 10 * p_sui s /\
  sui_out == 10 /\
  reserve_sui s2 == reserve_sui s /\
  Nf s2 == Nf s.
Proof.
  apply (mint_then_redeem_round_trip
           indexed_pool (exec (OpMint 10) indexed_pool)
           (exec (OpRedeem (10 * p_sui indexed_pool / Pf indexed_pool))
                 (exec (OpMint 10) indexed_pool))
           10 (10 * p_sui indexed_pool / Pf indexed_pool)
           ((10 * p_sui indexed_pool / Pf indexed_pool)
            * Pf (exec (OpMint 10) indexed_pool) / p_sui (exec (OpMint 10) indexed_pool)));
    vm_compute; reflexivity.
Defined.

(** ** Recapitalization *)

(** X7. [emergency_recapitalization] never raises and, the governance
    hook being a placeholder that raises no collateral, returns 0 for every
    target: reserve, supply, obligations and the solvency check are as
    before. *)
Theorem emergency_recapitalization_raises_nothing (s : State) (target_sui : Q) :
  exists raised s',
    emergency_recapitalization target_sui s = Returned raised s' /\
    raised = 0 /\
    reserve_sui s' == reserve_sui s /\
    Nf s' = Nf s /\ sp_obligation_sui s' = sp_obligation_sui s /\
    check_solvency s' = check_solvency s.
Proof.
  unfold emergency_recapitalization, _raise_collateral_via_governance.
  destruct (Qle_bool_reflect target_sui 0) as [H | H].
  - eexists _, _. split; [reflexivity |]. repeat split; reflexivity.
  - assert (pymin target_sui 0 = 0) as ->.
    { destruct (pymin_cases target_sui 0) as [[_ E] | [H' _]]; [exact E | lra]. }
    mred.
    match goal with
    | |- context [_update_px ?t] => destruct (_update_px_writes_Px t) as [px ->]
    end.
    eexists _, _. split; [reflexivity |]. fields.
    assert (reserve_sui s + 0 == reserve_sui s) as E by ring.
    repeat split; auto.
    unfold check_solvency. fields. now rewrite E.
Qed.

(** ** The payment callback *)

(** X8. When [sp_claim_pay_sui] returns, either the amount was not
    positive and nothing changed, or the amount left the reserve, the
    reserve is not below [-EPS] afterwards, and obligations and user records
    are untouched. *)
Theorem sp_claim_pay_sui_overdraft_bound (s s' : State) (amount_sui : Q) :
  sp_claim_pay_sui amount_sui s = Returned tt s' ->
  (amount_sui <= 0 /\ s' = s) \/
  (0 < amount_sui /\ reserve_sui s' = reserve_sui s - amount_sui /\
   - EPS <= reserve_sui s' /\ sp_obligation_sui s' = sp_obligation_sui s /\
   users s' = users s).
Proof.
  intros H.
  destruct (sp_claim_pay_sui_decides s amount_sui)
    as [(E & H1) | [(E & _) | (E & H1 & H2)]]; rewrite E in H; inversion H; subst.
  - left. auto.
  - right. fields. repeat split; auto. lra.
Qed.

Lemma sp_claim_pay_sui_overdraft_bound_witness :
  let s := indexed_pool in
  let s' := final (sp_claim_pay_sui 12.5 indexed_pool) in
  (12.5 <= 0 /\ s' = s) \/
  (0 < 12.5 /\ reserve_sui s' = reserve_sui s - 12.5 /\
   - EPS <= reserve_sui s' /\ sp_obligation_sui s' = sp_obligation_sui s /\
   users s' = users s).
Proof.
  apply (sp_claim_pay_sui_overdraft_bound
           indexed_pool (final (sp_claim_pay_sui 12.5 indexed_pool)) 12.5).
  vm_compute. reflexivity.
Defined.

(** ** The solvency check *)

(** Every call keeps the reserve above [-EPS]: only a redemption and the
    payment of a claim take SUI out, the first at most the reserve, the
    second at most the reserve plus [EPS]. *)
Lemma exec_keeps_reserve_floor (s : State) (o : op) :
  - EPS <= reserve_sui s -> - EPS <= reserve_sui (exec o s).
Proof.
  intros Hs. pose proof EPS_pos as He.
  destruct o as [p t | d | b | t | t | u a | u a | u | y]; unfold exec.
  - unfold update_from_oracle, _update_px. explore; lra.
  - unfold mint_ftoken, _update_px. explore; lra.
  - unfold redeem_ftoken, _update_px, reserve_net_sui, Core.sp_obligation_sui, pymax.
    explore; lra.
  - destruct (protocol_rebalance_decides s t) as [[e ->] | [-> | (px & -> & _)]];
      unfold burn_indexed; fields; exact Hs.
  - unfold emergency_recapitalization, _update_px, _raise_collateral_via_governance, pymin.
    explore; lra.
  - unfold sp_deposit, _settle_user. explore; lra.
  - unfold sp_withdraw, _settle_user. explore; lra.
  - unfold sp_claim, _settle_user, sp_claim_pay_sui. explore; lra.
  - destruct (sp_index_harvest_decides s y) as [[-> _] | [-> _]]; unfold harvest_indexed; fields; exact Hs.
Qed.

(** X9. In every store a call sequence can reach from the initial one,
    whatever the pool has indexed, the reserve is not below [-EPS] and
    [check_solvency] answers true: it compares the reserve with the core's
    own [sp_obligation_sui], which no call ever rebinds. *)
Theorem check_solvency_holds_in_every_reachable_store
        (us : gmap nat SPUser) (s : State) :
  reachable us s -> - EPS <= reserve_sui s /\ check_solvency s = true.
Proof.
  intros H. pose proof EPS_pos as He.
  assert (- EPS <= reserve_sui s) as Hr.
  { induction H as [| s o _ IH].
    - cbn. lra.
    - apply exec_keeps_reserve_floor. exact IH. }
  split; [exact Hr |].
  unfold check_solvency, Core.sp_obligation_sui. apply Qle_bool_iff. lra.
Qed.

Lemma check_solvency_holds_in_every_reachable_store_witness :
  - EPS <= reserve_sui unfunded_harvest_pool /\
  check_solvency unfunded_harvest_pool = true.
Proof.
  apply (check_solvency_holds_in_every_reachable_store one_holder unfunded_harvest_pool).
  unfold unfunded_harvest_pool, run. cbn [fold_left].
  repeat apply reach_step. apply reach_init.
Defined.

(** ** Claims, deposits and withdrawals *)

Lemma sp_claim_at_index (user : nat) (s : State) (cb : Q -> M unit) :
  sp_index_snap (the_user user s) = sp_index_sui_scaled s ->
  sp_claim user cb s = Returned 0 (settled user s).
Proof.
  intros E. rewrite sp_claim_unfolds, (accrued_at_index user s E). reflexivity.
Qed.

(** Settling a user who is in the heap with the snapshot at the index
    changes nothing. *)
Lemma settled_at_index (user : nat) (u : SPUser) (s : State) :
  users s !! user = Some u -> sp_index_snap u = sp_index_sui_scaled s ->
  settled user s = s.
Proof.
  intros Hu E. unfold settled, put_user, the_user. rewrite Hu. cbn [from_option id].
  rewrite <- E. destruct u as [b sc sn]. cbn [set_sp_index_snap ftoken_balance sp_scaled sp_index_snap].
  rewrite insert_id by exact Hu. destruct s; reflexivity.
Qed.

(** X10. After a claim through the core's callback has returned, a
    second claim by the same user returns 0 and leaves the store exactly as
    the first claim left it. *)
Theorem sp_claim_is_not_paid_twice (s s1 : State) (user : nat) (v : Q) :
  sp_claim user sp_claim_pay_sui s = Returned v s1 ->
  sp_claim user sp_claim_pay_sui s1 = Returned 0 s1.
Proof.
  intros H.
  assert (users s1 !! user =
            Some (set_sp_index_snap (sp_index_sui_scaled s) (the_user user s)) /\
          sp_index_sui_scaled s1 = sp_index_sui_scaled s) as [Hu Hi].
  { destruct (sp_claim_core_decides s user) as [(E & _) | [(E & _) | (E & _)]];
      rewrite E in H; inversion H; subst; clear H.
    - unfold settled, put_user. fields. now rewrite lookup_insert_eq.
    - unfold claim_paid. cbn zeta.
      destruct (Qltb (sp_obligation_sui s - accrued user s) 0);
        unfold settled, put_user; fields; now rewrite lookup_insert_eq. }
  assert (the_user user s1 = set_sp_index_snap (sp_index_sui_scaled s) (the_user user s)) as Eu
      by (unfold the_user at 1; now rewrite Hu).
  rewrite sp_claim_at_index by (rewrite Eu, Hi; reflexivity).
  f_equal. eapply settled_at_index; [exact Hu | rewrite Hi; reflexivity].
Qed.

Lemma sp_claim_is_not_paid_twice_witness :
  sp_claim 0 sp_claim_pay_sui (exec (OpClaim 0) indexed_pool) =
    Returned 0 (exec (OpClaim 0) indexed_pool).
Proof.
  apply (sp_claim_is_not_paid_twice indexed_pool (exec (OpClaim 0) indexed_pool) 0
           (accrued 0 indexed_pool)).
  vm_compute. reflexivity.
Defined.

(** X11. A claim through the core's callback that returns a non-zero
    amount paid exactly what had accrued to the user, more than [EPS]; the
    amount left the reserve (which is not below [-EPS] afterwards); the
    obligation total is not negative, dropped by the same amount when it
    covered it (so reserve minus obligations is unchanged) and is 0
    otherwise; scale, index, scaled total, supply and the other users'
    records are untouched. *)
Theorem sp_claim_paid_accounting (s s1 : State) (user : nat) (v : Q) :
  sp_claim user sp_claim_pay_sui s = Returned v s1 -> ~ v == 0 ->
  v = accrued user s /\ EPS < v /\
  reserve_sui s1 = reserve_sui s - v /\
  - EPS <= reserve_sui s1 /\
  0 <= sp_obligation_sui s1 /\
  (v <= sp_obligation_sui s ->
   sp_obligation_sui s1 == sp_obligation_sui s - v /\
   reserve_sui s1 - sp_obligation_sui s1 == reserve_sui s - sp_obligation_sui s) /\
  (sp_obligation_sui s < v -> sp_obligation_sui s1 = 0) /\
  sp_scaled_total s1 = sp_scaled_total s /\ sp_scale s1 = sp_scale s /\
  sp_index_sui_scaled s1 = sp_index_sui_scaled s /\ Nf s1 = Nf s /\
  (forall user', user' <> user -> the_user user' s1 = the_user user' s).
Proof.
  intros H Hv.
  destruct (sp_claim_core_decides s user) as [(E & _) | [(E & _) | (E & H1 & H2)]];
    rewrite E in H; inversion H; subst; clear H.
  - exfalso. apply Hv. reflexivity.
  - set (v := accrued user s) in *. unfold claim_paid. cbn zeta.
    destruct (Qltb_reflect (sp_obligation_sui s - v) 0) as [Hc | Hc];
      unfold settled; fields;
      (repeat split; try reflexivity; try lra;
       try (intros user' Hne; unfold the_user; fields;
            now rewrite lookup_insert_ne by auto)).
    all: intros; exfalso; lra.
Qed.

Lemma sp_claim_paid_accounting_witness :
  let s := indexed_pool in
  let s1 := exec (OpClaim 0) indexed_pool in
  let v := accrued 0 indexed_pool in
  v = accrued 0 s /\ EPS < v /\
  reserve_sui s1 = reserve_sui s - v /\
  - EPS <= reserve_sui s1 /\
  0 <= sp_obligation_sui s1 /\
  (v <= sp_obligation_sui s ->
   sp_obligation_sui s1 == sp_obligation_sui s - v /\
   reserve_sui s1 - sp_obligation_sui s1 == reserve_sui s - sp_obligation_sui s) /\
  (sp_obligation_sui s < v -> sp_obligation_sui s1 = 0) /\
  sp_scaled_total s1 = sp_scaled_total s /\ sp_scale s1 = sp_scale s /\
  sp_index_sui_scaled s1 = sp_index_sui_scaled s /\ Nf s1 = Nf s /\
  (forall user', user' <> 0%nat -> the_user user' s1 = the_user user' s).
Proof.
  apply (sp_claim_paid_accounting indexed_pool (exec (OpClaim 0) indexed_pool) 0
           (accrued 0 indexed_pool)); vm_compute; (reflexivity || discriminate).
Defined.

(** X12. A deposit that returns moved a positive amount out of the user's
    free balance, which stays non-negative, into the pool: the user's pooled
    balance ([sp_scaled * sp_scale]) and the pool total both grew by exactly
    that amount; scale, index, obligations, reserve, supply and the other
    users' records are untouched. *)
Theorem sp_deposit_moves_into_pool (s s1 : State) (user : nat) (f_amount : Q) :
  sp_deposit user f_amount s = Returned tt s1 ->
  0 < f_amount /\
  ftoken_balance (the_user user s1) = ftoken_balance (the_user user s) - f_amount /\
  0 <= ftoken_balance (the_user user s1) /\
  sp_scaled (the_user user s1) * sp_scale s1 ==
    sp_scaled (the_user user s) * sp_scale s + f_amount /\
  sp_total_f s1 == sp_total_f s + f_amount /\
  sp_scale s1 = sp_scale s /\
  sp_index_sui_scaled s1 = sp_index_sui_scaled s /\
  sp_obligation_sui s1 = sp_obligation_sui s /\
  reserve_sui s1 = reserve_sui s /\ Nf s1 = Nf s /\
  (forall user', user' <> user -> the_user user' s1 = the_user user' s).
Proof.
  rewrite sp_deposit_unfolds.
  destruct (Qle_bool_reflect f_amount 0) as [H0 | H0]; [discriminate |].
  destruct (Qltb_reflect (ftoken_balance (the_user user s)) f_amount) as [H1 | H1];
    [discriminate |].
  cbn [orb].
  destruct (Qeq_bool_reflect (sp_scale s) 0) as [Hz | Hz]; [discriminate |].
  intros H. inversion H. subst s1. clear H.
  unfold deposited, sp_total_f, the_user in *. cbn zeta. fields.
  rewrite ?lookup_insert_eq. cbn [from_option id]. fields.
  repeat split; try reflexivity; try lra; try (field; assumption).
  intros user' Hne. now rewrite lookup_insert_ne by auto.
Qed.

Lemma sp_deposit_moves_into_pool_witness :
  let s := partly_withdrawn_pool in
  let s1 := exec (OpDeposit 0 30) partly_withdrawn_pool in
  0 < 30 /\
  ftoken_balance (the_user 0 s1) = ftoken_balance (the_user 0 s) - 30 /\
  0 <= ftoken_balance (the_user 0 s1) /\
  sp_scaled (the_user 0 s1) * sp_scale s1 == sp_scaled (the_user 0 s) * sp_scale s + 30 /\
  sp_total_f s1 == sp_total_f s + 30 /\
  sp_scale s1 = sp_scale s /\
  sp_index_sui_scaled s1 = sp_index_sui_scaled s /\
  sp_obligation_sui s1 = sp_obligation_sui s /\
  reserve_sui s1 = reserve_sui s /\ Nf s1 = Nf s /\
  (forall user', user' <> 0%nat -> the_user user' s1 = the_user user' s).
Proof.
  apply (sp_deposit_moves_into_pool partly_withdrawn_pool
           (exec (OpDeposit 0 30) partly_withdrawn_pool) 0 30).
  vm_compute. reflexivity.
Defined.

(** X13. A withdrawal that returns moved a positive amount, at most the
    user's pooled balance plus [EPS], to the free balance: the pooled balance
    and the pool total both shrank by exactly that amount, the pooled balance
    is not below [-EPS] afterwards, and scale, index, obligations, reserve,
    supply and the other users' records are untouched. *)
Theorem sp_withdraw_moves_out_of_pool (s s1 : State) (user : nat) (f_amount : Q) :
  sp_withdraw user f_amount s = Returned tt s1 ->
  0 < f_amount /\
  f_amount <= sp_scaled (the_user user s) * sp_scale s + EPS /\
  ftoken_balance (the_user user s1) = ftoken_balance (the_user user s) + f_amount /\
  sp_scaled (the_user user s1) * sp_scale s1 ==
    sp_scaled (the_user user s) * sp_scale s - f_amount /\
  - EPS <= sp_scaled (the_user user s1) * sp_scale s1 /\
  sp_total_f s1 == sp_total_f s - f_amount /\
  sp_scale s1 = sp_scale s /\
  sp_index_sui_scaled s1 = sp_index_sui_scaled s /\
  sp_obligation_sui s1 = sp_obligation_sui s /\
  reserve_sui s1 = reserve_sui s /\ Nf s1 = Nf s /\
  (forall user', user' <> user -> the_user user' s1 = the_user user' s).
Proof.
  rewrite sp_withdraw_unfolds.
  destruct (Qle_bool_reflect f_amount 0) as [H0 | H0]; [discriminate |].
  destruct (Qltb_reflect (sp_scaled (the_user user s) * sp_scale s + EPS) f_amount)
    as [H1 | H1]; [discriminate |].
  destruct (Qeq_bool_reflect (sp_scale s) 0) as [Hz | Hz]; [discriminate |].
  intros H. inversion H. subst s1. clear H.
  assert ((sp_scaled (the_user user s) - f_amount / sp_scale s) * sp_scale s ==
          sp_scaled (the_user user s) * sp_scale s - f_amount) as E by (field; assumption).
  unfold withdrawn, sp_total_f, the_user in *. cbn zeta. fields.
  rewrite ?lookup_insert_eq. cbn [from_option id]. fields.
  repeat split; try reflexivity; try lra; try (field; assumption).
  intros user' Hne. now rewrite lookup_insert_ne by auto.
Qed.

Lemma sp_withdraw_moves_out_of_pool_witness :
  let s := indexed_pool in
  let s1 := exec (OpWithdraw 0 40) indexed_pool in
  0 < 40 /\
  40 <= sp_scaled (the_user 0 s) * sp_scale s + EPS /\
  ftoken_balance (the_user 0 s1) = ftoken_balance (the_user 0 s) + 40 /\
  sp_scaled (the_user 0 s1) * sp_scale s1 == sp_scaled (the_user 0 s) * sp_scale s - 40 /\
  - EPS <= sp_scaled (the_user 0 s1) * sp_scale s1 /\
  sp_total_f s1 == sp_total_f s - 40 /\
  sp_scale s1 = sp_scale s /\
  sp_index_sui_scaled s1 = sp_index_sui_scaled s /\
  sp_obligation_sui s1 = sp_obligation_sui s /\
  reserve_sui s1 = reserve_sui s /\ Nf s1 = Nf s /\
  (forall user', user' <> 0%nat -> the_user user' s1 = the_user user' s).
Proof.
  apply (sp_withdraw_moves_out_of_pool indexed_pool
           (exec (OpWithdraw 0 40) indexed_pool) 0 40).
  vm_compute. reflexivity.
Defined.

(** X14. [sp_deposit] and [sp_withdraw] settle the user and drop the
    amount settled.  After a deposit or a withdrawal that returned, and also
    after a withdrawal refused for "insufficient SP balance", the obligation
    total is what it was but nothing is accrued to the user any more: a
    claim, whatever its callback, returns 0 and changes nothing. *)
Theorem settling_forfeits_accrued_sui (s s1 : State) (user : nat) (f_amount : Q) :
  sp_deposit user f_amount s = Returned tt s1 \/
  sp_withdraw user f_amount s = Returned tt s1 \/
  sp_withdraw user f_amount s = Raised InsufficientSPBalance s1 ->
  sp_obligation_sui s1 = sp_obligation_sui s /\
  accrued user s1 = 0 /\
  (forall cb : Q -> M unit, sp_claim user cb s1 = Returned 0 s1).
Proof.
  intros H.
  assert (exists u, users s1 !! user = Some u /\
                    sp_index_snap u = sp_index_sui_scaled s1 /\
                    sp_obligation_sui s1 = sp_obligation_sui s) as (u & Hu & Hi & Ho).
  { destruct H as [H | [H | H]].
    - rewrite sp_deposit_unfolds in H.
      destruct (Qle_bool f_amount 0 || Qltb (ftoken_balance (the_user user s)) f_amount);
        [discriminate |].
      destruct (Qeq_bool (sp_scale s) 0); [discriminate |].
      inversion H. subst s1. unfold deposited. cbn zeta. fields.
      rewrite lookup_insert_eq. eexists. split; [reflexivity |]. split; reflexivity.
    - rewrite sp_withdraw_unfolds in H.
      destruct (Qle_bool f_amount 0); [discriminate |].
      destruct (Qltb (sp_scaled (the_user user s) * sp_scale s + EPS) f_amount);
        [discriminate |].
      destruct (Qeq_bool (sp_scale s) 0); [discriminate |].
      inversion H. subst s1. unfold withdrawn. cbn zeta. fields.
      rewrite lookup_insert_eq. eexists. split; [reflexivity |]. split; reflexivity.
    - rewrite sp_withdraw_unfolds in H.
      destruct (Qle_bool f_amount 0); [discriminate |].
      destruct (Qltb (sp_scaled (the_user user s) * sp_scale s + EPS) f_amount).
      + inversion H. subst s1. unfold settled. fields.
        rewrite lookup_insert_eq. eexists. split; [reflexivity |]. split; reflexivity.
      + destruct (Qeq_bool (sp_scale s) 0); discriminate. }
  assert (the_user user s1 = u) as Eu by (unfold the_user; now rewrite Hu).
  assert (sp_index_snap (the_user user s1) = sp_index_sui_scaled s1) as Es
      by (now rewrite Eu).
  split; [exact Ho |]. split; [exact (accrued_at_index user s1 Es) |].
  intros cb. rewrite (sp_claim_at_index user s1 cb Es). f_equal.
  exact (settled_at_index user u s1 Hu Hi).
Qed.

Lemma settling_forfeits_accrued_sui_witness :
  EPS < accrued 0 indexed_pool /\
  sp_obligation_sui (exec (OpWithdraw 0 40) indexed_pool) = sp_obligation_sui indexed_pool /\
  accrued 0 (exec (OpWithdraw 0 40) indexed_pool) = 0 /\
  (forall cb : Q -> M unit,
      sp_claim 0 cb (exec (OpWithdraw 0 40) indexed_pool) =
        Returned 0 (exec (OpWithdraw 0 40) indexed_pool)).
Proof.
  split; [vm_compute; reflexivity |].
  apply (settling_forfeits_accrued_sui indexed_pool
           (exec (OpWithdraw 0 40) indexed_pool) 0 40).
  right; left. vm_compute. reflexivity.
Defined.

(** X15. A withdrawal that raises does so with "bad amount" (amount not
    positive) and the store unchanged, or with "insufficient SP balance"
    (amount above the pooled balance plus [EPS]) or [ZeroDivisionError]
    (scale 0) after the user was settled: the store is then the old one with
    the user's snapshot moved to the index. *)
Theorem sp_withdraw_failures (s s1 : State) (user : nat) (f_amount : Q) (e : exn) :
  sp_withdraw user f_amount s = Raised e s1 ->
  (e = BadAmount /\ f_amount <= 0 /\ s1 = s) \/
  (e = InsufficientSPBalance /\
   sp_scaled (the_user user s) * sp_scale s + EPS < f_amount /\ s1 = settled user s) \/
  (e = ZeroDivisionError /\ sp_scale s == 0 /\ s1 = settled user s).
Proof.
  rewrite sp_withdraw_unfolds.
  destruct (Qle_bool_reflect f_amount 0) as [H0 | H0];
    [intros H; inversion H; auto |].
  destruct (Qltb_reflect (sp_scaled (the_user user s) * sp_scale s + EPS) f_amount)
    as [H1 | H1]; [intros H; inversion H; auto |].
  destruct (Qeq_bool_reflect (sp_scale s) 0) as [Hz | Hz];
    [intros H; inversion H; auto | discriminate].
Qed.

Lemma sp_withdraw_failures_witness :
  let s := indexed_pool in
  let s1 := exec (OpWithdraw 0 1000) indexed_pool in
  (InsufficientSPBalance = BadAmount /\ 1000 <= 0 /\ s1 = s) \/
  (InsufficientSPBalance = InsufficientSPBalance /\
   sp_scaled (the_user 0 s) * sp_scale s + EPS < 1000 /\ s1 = settled 0 s) \/
  (InsufficientSPBalance = ZeroDivisionError /\ sp_scale s == 0 /\ s1 = settled 0 s).
Proof.
  apply (sp_withdraw_failures indexed_pool (exec (OpWithdraw 0 1000) indexed_pool)
           0 1000 InsufficientSPBalance).
  vm_compute. reflexivity.
Defined.

(** X16. A deposit that raises does so with "bad amount" (amount not
    positive or above the free balance) and the store unchanged, or with
    [ZeroDivisionError] (scale 0) after the user was settled. *)
Theorem sp_deposit_failures (s s1 : State) (user : nat) (f_amount : Q) (e : exn) :
  sp_deposit user f_amount s = Raised e s1 ->
  (e = BadAmount /\ s1 = s /\
   (f_amount <= 0 \/ ftoken_balance (the_user user s) < f_amount)) \/
  (e = ZeroDivisionError /\ sp_scale s == 0 /\ s1 = settled user s).
Proof.
  rewrite sp_deposit_unfolds.
  destruct (Qle_bool_reflect f_amount 0) as [H0 | H0].
  { cbn [orb]. intros H. inversion H. subst. left. auto. }
  destruct (Qltb_reflect (ftoken_balance (the_user user s)) f_amount) as [H1 | H1].
  { cbn [orb]. intros H. inversion H. subst. left. auto. }
  cbn [orb].
  destruct (Qeq_bool_reflect (sp_scale s) 0) as [Hz | Hz]; [| discriminate].
  intros H. inversion H. subst. right. auto.
Qed.

Lemma sp_deposit_failures_witness :
  let s := indexed_pool in
  let s1 := exec (OpDeposit 0 1) indexed_pool in
  (BadAmount = BadAmount /\ s1 = s /\
   (1 <= 0 \/ ftoken_balance (the_user 0 s) < 1)) \/
  (BadAmount = ZeroDivisionError /\ sp_scale s == 0 /\ s1 = settled 0 s).
Proof.
  apply (sp_deposit_failures indexed_pool (exec (OpDeposit 0 1) indexed_pool)
           0 1 BadAmount).
  vm_compute. reflexivity.
Defined.

(** ** The L3 rebalance *)

Lemma pymax_0_pos (x : Q) : 0 < pymax 0 x -> pymax 0 x = x.
Proof.
  intros H. destruct (pymax_cases 0 x) as [[_ E] | [_ E]]; [exact E |].
  rewrite E in H. lra.
Qed.

Lemma pymax_0_nonneg (x : Q) : 0 <= x -> pymax 0 x == x.
Proof.
  intros H. destruct (pymax_cases 0 x) as [[_ E] | [H' E]]; rewrite E; lra.
Qed.

Lemma pymin3_bounds (a b c : Q) :
  pymin3 a b c <= a /\ pymin3 a b c <= b /\ pymin3 a b c <= c.
Proof.
  unfold pymin3.
  destruct (pymin_cases a b) as [[? E1] | [? E1]];
    destruct (pymin_cases (pymin a b) c) as [[? E2] | [? E2]];
    rewrite E2; rewrite ?E1 in *; repeat split; lra.
Qed.

(** X17. A rebalance that returns a non-zero burn burned more than [EPS],
    at most the computed need, at most the supply and at most half of the
    pool; the SUI indexed for it is worth the burn at NAV
    ([indexed * p_sui = burned * Pf]); the supply dropped by the burn, the
    pool total by the same amount, the obligation total grew by the indexed
    SUI and the index by [indexed / sp_scaled_total]; the reserve, the scaled
    total and every user record are untouched. *)
Theorem protocol_rebalance_executed_accounting
        (s s' : State) (target_cr burned indexed : Q) :
  protocol_rebalance_L3_to_target target_cr s = Returned (burned, indexed) s' ->
  ~ burned == 0 ->
  EPS < burned /\
  burned <= pymax 0 (Nf s - reserve_net_sui s * p_sui s / (target_cr * Pf s)) /\
  burned <= Nf s /\
  burned <= (1 # 2) * sp_total_f s /\
  indexed * p_sui s == burned * Pf s /\
  Nf s' = Nf s - burned /\
  reserve_sui s' = reserve_sui s /\
  sp_obligation_sui s' = sp_obligation_sui s + indexed /\
  sp_index_sui_scaled s' = sp_index_sui_scaled s + indexed / sp_scaled_total s /\
  sp_total_f s' == sp_total_f s - burned /\
  sp_scaled_total s' = sp_scaled_total s /\
  users s' = users s.
Proof.
  intros H Hb. pose proof EPS_pos as He.
  destruct (protocol_rebalance_decides s target_cr)
    as [[e E] | [E | (px & E & Hp & Hf & Ht & Hc & Hs)]];
    rewrite E in H; inversion H; subst; clear H.
  - exfalso. apply Hb. reflexivity.
  - clear E. set (f_burn := requested_burn target_cr s) in *.
    set (burned := capped_burn f_burn s) in *.
    destruct (capped_burn_bounds s f_burn) as [Hbf Hbt]. fold burned in Hbf, Hbt.
    assert (f_burn = pymin3 (pymax 0 (Nf s - reserve_net_sui s * p_sui s /
                                               (target_cr * Pf s)))
                            (sp_quote_burn_cap s) (Nf s)) as Ef.
    { subst f_burn. unfold requested_burn. apply pymax_0_pos.
      fold (requested_burn target_cr s). lra. }
    destruct (pymin3_bounds (pymax 0 (Nf s - reserve_net_sui s * p_sui s /
                                               (target_cr * Pf s)))
                            (sp_quote_burn_cap s) (Nf s)) as (B1 & _ & B3).
    rewrite <- Ef in B1, B3.
    destruct (shrink_factor s f_burn Ht Hc) as (Em & _ & _). fold burned in Em.
    unfold burn_indexed, sp_total_f in *. fields. rewrite Em.
    clearbody burned. clearbody f_burn.
    repeat split; try reflexivity; try lra.
    + field. split; intros Z; rewrite Z in *; lra.
    + field. split; intros Z; rewrite Z in *; lra.
Qed.

Lemma protocol_rebalance_executed_accounting_witness :
  let s := scenario_pool in
  let s' := exec (OpRebalance (4 # 3)) scenario_pool in
  let burned := capped_burn (requested_burn (4 # 3) s) s in
  let indexed :=
    requested_burn (4 # 3) s * Pf s / p_sui s / requested_burn (4 # 3) s * burned in
  EPS < burned /\
  burned <= pymax 0 (Nf s - reserve_net_sui s * p_sui s / ((4 # 3) * Pf s)) /\
  burned <= Nf s /\
  burned <= (1 # 2) * sp_total_f s /\
  indexed * p_sui s == burned * Pf s /\
  Nf s' = Nf s - burned /\
  reserve_sui s' = reserve_sui s /\
  sp_obligation_sui s' = sp_obligation_sui s + indexed /\
  sp_index_sui_scaled s' = sp_index_sui_scaled s + indexed / sp_scaled_total s /\
  sp_total_f s' == sp_total_f s - burned /\
  sp_scaled_total s' = sp_scaled_total s /\
  users s' = users s.
Proof.
  apply (protocol_rebalance_executed_accounting scenario_pool
           (exec (OpRebalance (4 # 3)) scenario_pool) (4 # 3));
    vm_compute; (reflexivity || discriminate).
Defined.

(** X18. A rebalance that raises leaves the store exactly as it was, and
    raises "oracle not set" (price at most [EPS]), or, with a price set and a
    supply above [EPS], "bad target" (target not positive) or
    [ZeroDivisionError] (NAV 0). *)
Theorem protocol_rebalance_failure_is_atomic (s s' : State) (target_cr : Q) (e : exn) :
  protocol_rebalance_L3_to_target target_cr s = Raised e s' ->
  s' = s /\
  ((e = OracleNotSet /\ p_sui s <= EPS) \/
   (e = BadTarget /\ EPS < p_sui s /\ EPS < Nf s /\ target_cr <= 0) \/
   (e = ZeroDivisionError /\ EPS < p_sui s /\ EPS < Nf s /\ Pf s == 0)).
Proof.
  intros H.
  assert (s' = s) as ->.
  { destruct (protocol_rebalance_decides s target_cr)
      as [[e' E] | [E | (px & E & _)]]; rewrite E in H; inversion H; reflexivity. }
  split; [reflexivity |].
  revert H. unfold protocol_rebalance_L3_to_target. mred.
  destruct (Qle_bool_reflect (p_sui s) EPS) as [Hp | Hp].
  { intros E. inversion E. auto. }
  destruct (Qle_bool_reflect (Nf s) EPS) as [Hn | Hn]; [discriminate |].
  unfold _compute_f_burn_needed_for_target.
  destruct (Qle_bool_reflect target_cr 0) as [Ht | Ht].
  { intros E. inversion E. right; left. repeat split; auto; lra. }
  mred.
  destruct (Qeq_bool_reflect (target_cr * Pf s) 0) as [Hz | Hz].
  { rewrite pydiv_zero by assumption. intros E. inversion E. right; right.
    repeat split; try lra.
    apply Qmult_integral in Hz. destruct Hz; [exfalso; lra | assumption]. }
  intros E. exfalso. revert E. rewrite pydiv_ok by assumption.
  destruct (Qle_bool _ EPS); [discriminate |].
  destruct (Qle_bool _ EPS); [discriminate |].
  pose proof EPS_pos as He.
  rewrite pydiv_ok by lra.
  match goal with
  | |- context [sp_controller_rebalance ?b ?p s] =>
      destruct (sp_controller_rebalance_decides s b p) as [[-> _] | [-> _]]
  end.
  - mred. assert (Qle_bool 0 EPS = true) as -> by reflexivity. discriminate.
  - mred. destruct (Qle_bool _ EPS); [discriminate |].
    match goal with
    | |- context [_update_px ?t] => destruct (_update_px_writes_Px t) as [px ->]
    end.
    discriminate.
Qed.

Lemma protocol_rebalance_failure_is_atomic_witness :
  minted_store = minted_store /\
  ((BadTarget = OracleNotSet /\ p_sui minted_store <= EPS) \/
   (BadTarget = BadTarget /\ EPS < p_sui minted_store /\ EPS < Nf minted_store /\
    - (1) <= 0) \/
   (BadTarget = ZeroDivisionError /\ EPS < p_sui minted_store /\ EPS < Nf minted_store /\
    Pf minted_store == 0)).
Proof.
  apply (protocol_rebalance_failure_is_atomic minted_store minted_store (- (1)) BadTarget).
  vm_compute. reflexivity.
Defined.

(** ** The harvest and the guarded divisions *)

(** X19. [sp_index_harvest] returns 0 and changes nothing when the yield
    or the scaled total is at most [EPS]; otherwise it returns a bounty of 1%
    of the yield, adds the other 99% to the obligation total and spreads it
    over the scaled total through the index, and touches neither reserve nor
    treasury, scale, scaled total or any user record. *)
Theorem sp_index_harvest_split (s : State) (yield_sui : Q) :
  (sp_index_harvest yield_sui s = Returned 0 s /\
   (yield_sui <= EPS \/ sp_scaled_total s <= EPS)) \/
  (exists bounty s',
      sp_index_harvest yield_sui s = Returned bounty s' /\
      EPS < yield_sui /\ EPS < sp_scaled_total s /\
      bounty == yield_sui * (1 # 100) /\
      sp_obligation_sui s' == sp_obligation_sui s + yield_sui * (99 # 100) /\
      (sp_index_sui_scaled s' - sp_index_sui_scaled s) * sp_scaled_total s
        == yield_sui * (99 # 100) /\
      reserve_sui s' = reserve_sui s /\ treasury_sui s' = treasury_sui s /\
      sp_scale s' = sp_scale s /\ sp_scaled_total s' = sp_scaled_total s /\
      users s' = users s).
Proof.
  pose proof EPS_pos as He.
  destruct (sp_index_harvest_decides s yield_sui) as [[E H] | (E & Hy & Hs)]; rewrite E.
  - left. auto.
  - right. eexists _, _. split; [reflexivity |].
    unfold harvest_indexed, HARVEST_BOUNTY_BPS, BPS. fields.
    repeat split; try reflexivity; try lra; try field; try lra.
Qed.

(** X20. [sp_controller_rebalance], [sp_index_harvest],
    [collateral_ratio], [current_level] and [_update_px] return for every
    store and every argument: each of their divisions is guarded by a
    comparison with [EPS]. *)
Theorem guarded_calls_never_raise (s : State) :
  (forall f_burn payout_sui, exists r s',
      sp_controller_rebalance f_burn payout_sui s = Returned r s') /\
  (forall yield_sui, exists r s', sp_index_harvest yield_sui s = Returned r s') /\
  (exists cr, collateral_ratio s = Returned cr s) /\
  (exists lvl, current_level s = Returned lvl s) /\
  (exists s', _update_px s = Returned tt s').
Proof.
  repeat split.
  - intros f_burn payout_sui.
    destruct (sp_controller_rebalance_decides s f_burn payout_sui) as [[E _] | [E _]];
      rewrite E; eauto.
  - intros y. destruct (sp_index_harvest_decides s y) as [[E _] | [E _]];
      rewrite E; eauto.
  - eexists. apply collateral_ratio_returns.
  - unfold current_level. unfold bind. rewrite collateral_ratio_returns.
    repeat match goal with
           | |- context [Qle_bool ?a ?b] => destruct (Qle_bool a b)
           end; eexists; reflexivity.
  - destruct (_update_px_writes_Px s) as [px ->]. eauto.
Qed.

(** X21. For a positive target and NAV,
    [_compute_f_burn_needed_for_target] returns a need that is not negative
    and leaves the store alone; when the need is positive, burning it with
    the net reserve held constant brings the ratio to the target
    ([reserve_net_usd = target_cr * (Nf - need) * Pf]); when it is 0 the
    ratio is at or above the target already. *)
Theorem _compute_f_burn_needed_reaches_target (s : State) (target_cr : Q) :
  0 < target_cr -> 0 < Pf s ->
  exists need,
    _compute_f_burn_needed_for_target target_cr s = Returned need s /\
    0 <= need /\
    (0 < need -> reserve_net_usd s == target_cr * ((Nf s - need) * Pf s)) /\
    (need == 0 -> target_cr * (Nf s * Pf s) <= reserve_net_usd s).
Proof.
  intros Ht Hpf.
  rewrite _compute_f_burn_needed_returns by lra.
  eexists. split; [reflexivity |].
  set (nf_target := reserve_net_sui s * p_sui s / (target_cr * Pf s)).
  assert (0 < target_cr * Pf s) as Htp by nra.
  assert (reserve_net_usd s == nf_target * (target_cr * Pf s)) as En.
  { unfold reserve_net_usd. subst nf_target. field. lra. }
  clearbody nf_target.
  destruct (pymax_cases 0 (Nf s - nf_target)) as [[Hc E] | [Hc E]]; rewrite E.
  - split; [lra |]. split.
    + intros _. rewrite En. ring.
    + intros Z. exfalso. lra.
  - split; [lra |]. split.
    + intros Z. exfalso. lra.
    + intros _. rewrite En. nra.
Qed.

Lemma _compute_f_burn_needed_reaches_target_witness :
  exists need,
    _compute_f_burn_needed_for_target (4 # 3) scenario_pool = Returned need scenario_pool /\
    0 <= need /\
    (0 < need ->
     reserve_net_usd scenario_pool ==
       (4 # 3) * ((Nf scenario_pool - need) * Pf scenario_pool)) /\
    (need == 0 ->
     (4 # 3) * (Nf scenario_pool * Pf scenario_pool) <= reserve_net_usd scenario_pool).
Proof.
  apply (_compute_f_burn_needed_reaches_target scenario_pool (4 # 3));
    vm_compute; reflexivity.
Defined.

(** ** The implied equity NAV *)

(** X22. [_update_px] never raises and writes [Px] only.  With an
    equity supply of at most [EPS] it changes nothing; above [EPS] the new
    [Px] is not negative, it balances the books exactly
    ([reserve_usd = Nf * Pf + Nx * Px]) when the reserve is worth at least
    the liability, and is 0 when it is worth less. *)
Theorem _update_px_implies_equity_nav (s : State) :
  exists s',
    _update_px s = Returned tt s' /\
    Nf s' = Nf s /\ Nx s' = Nx s /\ Pf s' = Pf s /\ p_sui s' = p_sui s /\
    reserve_sui s' = reserve_sui s /\ sp_obligation_sui s' = sp_obligation_sui s /\
    (Nx s <= EPS -> s' = s) /\
    (EPS < Nx s -> 0 <= Px s' /\
       (Nf s * Pf s <= reserve_usd s -> balanced s') /\
       (reserve_usd s < Nf s * Pf s -> Px s' = 0)).
Proof.
  pose proof EPS_pos as He.
  unfold _update_px. mred.
  destruct (Qle_bool_reflect (Nx s) EPS) as [Hn | Hn].
  - exists s. do 7 (split; [reflexivity |]).
    split; [reflexivity |]. intros H. exfalso. lra.
  - rewrite pydiv_ok by (pose proof (pymax_EPS_pos (Nx s)); lra).
    eexists. split; [reflexivity |]. fields.
    do 6 (split; [reflexivity |]).
    split; [intros H; exfalso; lra |]. intros _.
    assert (pymax EPS (Nx s) = Nx s) as ->.
    { destruct (pymax_cases EPS (Nx s)) as [[_ E] | [H' _]]; [exact E | lra]. }
    split; [apply pymax_lb_l |].
    unfold balanced, reserve_usd. fields.
    set (v := reserve_sui s * p_sui s - Nf s * Pf s) in *.
    split.
    + intros Hs.
      assert (0 <= v / Nx s) as Hq by (apply Qle_shift_div_l; subst v; lra).
      rewrite (pymax_0_nonneg _ Hq).
      assert (Nx s * (v / Nx s) == v) as -> by (field; lra).
      subst v. ring.
    + intros Hs.
      assert (v / Nx s < 0) by (apply Qlt_shift_div_r; subst v; lra).
      destruct (pymax_cases 0 (v / Nx s)) as [[H' _] | [_ E]]; [lra | exact E].
Qed.

(** X23. While no equity is outstanding ([Nx <= EPS]) and at the fixed
    NAV, a mint or a redemption, returned or raised, keeps the balance
    [reserve_usd = Nf * Pf + Nx * Px] exact if it was, so [check_invariant]
    holds afterwards within every tolerance. *)
Theorem mint_and_redeem_keep_balance (s : State) (o : op) (tol : Q) :
  (exists d, o = OpMint d) \/ (exists b, o = OpRedeem b) ->
  Nx s <= EPS -> Pf s = PF_FIXED -> balanced s -> 0 <= tol ->
  balanced (exec o s) /\ check_invariant tol (exec o s) = true.
Proof.
  intros Ho Hnx Hpf Hb Htol.
  assert (balanced (exec o s)) as Hb'.
  { destruct Ho as [[d ->] | [b ->]]; unfold exec.
    - destruct (mint_ftoken d s) as [v s' | e s'] eqn:E; cbn [final].
      + eapply mint_keeps_balance; eassumption.
      + revert E. unfold mint_ftoken.
        destruct (Qle_bool d 0); [intros E; inversion E; subst; assumption |].
        mred. rewrite pydiv_ok by (fields; rewrite Hpf; discriminate).
        match goal with
        | |- context [_update_px ?t] => destruct (_update_px_writes_Px t) as [px ->]
        end.
        discriminate.
    - destruct (redeem_ftoken b s) as [v s' | e s'] eqn:E; cbn [final].
      + eapply redeem_keeps_balance; eassumption.
      + apply redeem_ftoken_failure_is_atomic_aux in E. subst. assumption. }
  split; [exact Hb' | apply balanced_conserves_value; assumption].
Qed.

Lemma mint_and_redeem_keep_balance_witness :
  balanced (exec (OpRedeem 50) minted_store) /\
  check_invariant (1 # 1000000) (exec (OpRedeem 50) minted_store) = true.
Proof.
  apply (mint_and_redeem_keep_balance minted_store (OpRedeem 50) (1 # 1000000));
    [right; exists 50; reflexivity | vm_compute; discriminate | reflexivity
    | vm_compute; reflexivity | vm_compute; discriminate].
Defined.

(** ** An empty reserve, and what the core knows of the pool *)

(** An empty reserve leaves no net reserve. *)
Lemma reserve_net_sui_exhausted (s : State) :
  reserve_sui s <= 0 -> reserve_net_sui s = 0.
Proof.
  intros H. unfold reserve_net_sui, Core.sp_obligation_sui.
  destruct (pymax_cases 0 (reserve_sui s - 0)) as [[H' _] | [_ E]];
    [lra | exact E].
Qed.

(** X24. When the reserve is empty, the net reserve is 0:
    [current_level] returns 5 whatever the supply, and at a positive price
    and NAV every redemption raises ("bad amount" or "insufficient reserve
    net of SP obligations"), leaving the store unchanged. *)
Theorem empty_reserve_is_level_5_and_frozen (s : State) :
  reserve_sui s <= 0 ->
  current_level s = Returned 5%nat s /\
  (forall burn_f, 0 < p_sui s -> 0 < Pf s ->
     exists e, redeem_ftoken burn_f s = Raised e s /\
               (e = BadAmount \/ e = InsufficientReserveNet)).
Proof.
  intros H. pose proof (reserve_net_sui_exhausted s H) as En. split.
  - apply current_level_5_iff. unfold reserve_net_usd. rewrite En.
    pose proof (pymax_EPS_pos (Nf s * Pf s)). unfold CR_T_L4. lra.
  - intros b Hp Hpf.
    destruct (redeem_ftoken_decides s b)
      as [(E & _) | [(E & _ & _ & Hz) | [(E & _) | (px & E & Hb & _ & _ & Hn)]]].
    + eauto.
    + exfalso. lra.
    + eauto.
    + exfalso. rewrite En in Hn.
      assert (0 < b * Pf s / p_sui s) by (apply Qlt_shift_div_l; nra). lra.
Qed.

Lemma empty_reserve_is_level_5_and_frozen_witness :
  (0 < p_sui drained_store /\ 0 < Pf drained_store /\ 0 < Nf drained_store) /\
  current_level drained_store = Returned 5%nat drained_store /\
  (forall burn_f, 0 < p_sui drained_store -> 0 < Pf drained_store ->
     exists e, redeem_ftoken burn_f drained_store = Raised e drained_store /\
               (e = BadAmount \/ e = InsufficientReserveNet)).
Proof.
  split; [repeat split; vm_compute; reflexivity |].
  apply (empty_reserve_is_level_5_and_frozen drained_store).
  vm_compute. discriminate.
Defined.

(** X28. The core never looks at what the pool has indexed: whatever the
    pool's [sp_obligation_sui] is, the net reserve is the whole reserve (0
    if it is negative), [check_solvency] answers the same, and
    [current_level] and [redeem_ftoken] return the same values and make the
    same changes.  So a redemption can pay out SUI the pool's depositors are
    owed: with 9.9 SUI indexed against a reserve of 100, the redemption of
    all 200 fTokens returns 100 SUI, and the depositor's claim then
    raises. *)
Theorem core_ignores_pool_obligations :
  (forall (s : State) (v : Q),
     reserve_net_sui (set_sp_obligation_sui v s) = reserve_net_sui s /\
     (0 <= reserve_sui s -> reserve_net_sui s == reserve_sui s) /\
     check_solvency (set_sp_obligation_sui v s) = check_solvency s /\
     (forall lvl, current_level s = Returned lvl s ->
                  current_level (set_sp_obligation_sui v s) =
                    Returned lvl (set_sp_obligation_sui v s)) /\
     (forall burn_f sui_out s', redeem_ftoken burn_f s = Returned sui_out s' ->
        redeem_ftoken burn_f (set_sp_obligation_sui v s) =
          Returned sui_out (set_sp_obligation_sui v s'))) /\
  (exists sui_out s1 s2,
     sp_obligation_sui priced_harvest_pool == 9.9 /\
     reserve_sui priced_harvest_pool == 100 /\
     redeem_ftoken 200 priced_harvest_pool = Returned sui_out s1 /\
     sui_out == 100 /\
     reserve_sui s1 == 0 /\ sp_obligation_sui s1 == 9.9 /\
     sp_claim 0 sp_claim_pay_sui s1 = Raised InsufficientReserveForClaim s2).
Proof.
  split.
  - intros s v. split; [reflexivity |].
    split.
    { intros H. unfold reserve_net_sui, Core.sp_obligation_sui.
      destruct (pymax_cases 0 (reserve_sui s - 0)) as [[Hc E] | [Hc E]];
        rewrite E; lra. }
    split; [reflexivity |].
    split.
    + intros lvl. unfold current_level, collateral_ratio, reserve_net_usd, reserve_net_sui.
      explore; intros H; inversion H; reflexivity.
    + intros b out s'. unfold redeem_ftoken, _update_px, reserve_net_sui.
      explore; intros H; inversion H; subst; reflexivity.
  - eexists _, _, _. split; [vm_compute; reflexivity |].
    split; [vm_compute; reflexivity |].
    split; [vm_compute; reflexivity |].
    repeat split; vm_compute; reflexivity.
Qed.

Lemma core_ignores_pool_obligations_witness :
  (0 <= reserve_sui priced_harvest_pool ->
   reserve_net_sui priced_harvest_pool == reserve_sui priced_harvest_pool) /\
  (exists lvl,
     current_level (set_sp_obligation_sui 1000 priced_harvest_pool) =
       Returned lvl (set_sp_obligation_sui 1000 priced_harvest_pool)) /\
  (exists sui_out s',
     redeem_ftoken 200 (set_sp_obligation_sui 1000 priced_harvest_pool) =
       Returned sui_out (set_sp_obligation_sui 1000 s')).
Proof.
  split; [| split].
  - apply (proj1 core_ignores_pool_obligations priced_harvest_pool 1000).
  - eexists.
    apply (proj1 core_ignores_pool_obligations priced_harvest_pool 1000).
    vm_compute. reflexivity.
  - eexists _, _.
    apply (proj1 core_ignores_pool_obligations priced_harvest_pool 1000).
    vm_compute. reflexivity.
Defined.

(** ** The surplus left to equity *)

(** X25. At the fixed NAV, the value left to equity,
    [(reserve_sui - sp_obligation_sui) * p_sui - Nf * Pf], is unchanged by
    every call other than the oracle update and the harvest, returned or
    raised: mint, redeem, rebalance, recap, deposit, withdraw, and a claim of
    at most the obligation total.  In particular a rebalance burns supply
    and indexes obligations of equal value. *)
Theorem surplus_kept_by_every_other_call (s : State) (o : op) :
  keeps_surplus o = true -> Pf s = PF_FIXED ->
  (forall user, o = OpClaim user -> accrued user s <= sp_obligation_sui s) ->
  surplus (exec o s) == surplus s.
Proof.
  intros Ho Hpf Hclaim. pose proof EPS_pos as He. unfold surplus.
  destruct o as [p t | d | b | t | t | u a | u a | u | y]; try discriminate Ho;
    unfold exec.
  - (* mint *)
    unfold mint_ftoken. destruct (Qle_bool d 0); [reflexivity |]. mred.
    rewrite pydiv_ok by (fields; rewrite Hpf; discriminate).
    match goal with
    | |- context [_update_px ?t] => destruct (_update_px_writes_Px t) as [px ->]
    end.
    fields. rewrite Hpf. unfold PF_FIXED. field.
  - (* redeem *)
    destruct (redeem_ftoken_decides s b)
      as [(E & _) | [(E & _) | [(E & _) | (px & E & _ & _ & Hp & _)]]];
      rewrite E; try reflexivity.
    fields. rewrite Hpf. unfold PF_FIXED. field. exact Hp.
  - (* rebalance *)
    destruct (protocol_rebalance_decides s t)
      as [[e E] | [E | (px & E & Hp & Hf & _)]]; rewrite E; try reflexivity.
    unfold burn_indexed. fields.
    set (f_burn := requested_burn t s) in *. clearbody f_burn.
    rewrite Hpf. unfold PF_FIXED. field. split; intros Z; rewrite Z in *; lra.
  - (* recap *)
    unfold emergency_recapitalization, _raise_collateral_via_governance.
    destruct (Qle_bool_reflect t 0) as [Ht | Ht]; [reflexivity |].
    assert (pymin t 0 = 0) as ->.
    { destruct (pymin_cases t 0) as [[_ E] | [H' _]]; [exact E | lra]. }
    mred.
    match goal with
    | |- context [_update_px ?t] => destruct (_update_px_writes_Px t) as [px ->]
    end.
    fields. ring.
  - (* deposit *)
    rewrite sp_deposit_unfolds.
    destruct (_ || _); [reflexivity |].
    destruct (Qeq_bool _ 0); reflexivity.
  - (* withdraw *)
    rewrite sp_withdraw_unfolds.
    destruct (Qle_bool _ 0); [reflexivity |].
    destruct (Qltb _ _); [reflexivity |].
    destruct (Qeq_bool _ 0); reflexivity.
  - (* claim *)
    specialize (Hclaim u eq_refl).
    destruct (sp_claim_core_decides s u) as [(E & _) | [(E & _) | (E & _)]];
      rewrite E; try reflexivity.
    unfold claim_paid. cbn zeta.
    destruct (Qltb_reflect (sp_obligation_sui s - accrued u s) 0) as [Hc | Hc];
      [exfalso; lra |].
    unfold settled. fields. ring.
Qed.

Lemma surplus_kept_by_every_other_call_witness :
  surplus (exec (OpClaim 0) indexed_pool) == surplus indexed_pool.
Proof.
  apply (surplus_kept_by_every_other_call indexed_pool (OpClaim 0));
    [reflexivity | reflexivity |].
  intros user E. injection E as <-. vm_compute. discriminate.
Defined.

(** ** The scaled total and the users' shares *)

#[local] Instance Qeq_preorder : PreOrder Qeq.
Proof. split; [exact Qeq_refl | exact Qeq_trans]. Qed.

Lemma scaled_sum_insert_fresh (us : gmap nat SPUser) (user : nat) (u : SPUser) :
  us !! user = None ->
  scaled_sum (<[user := u]> us) == sp_scaled u + scaled_sum us.
Proof.
  intros H. unfold scaled_sum.
  apply (map_fold_insert Qeq (fun _ u acc => sp_scaled u + acc)); [| | exact H].
  - intros j z x y E. now rewrite E.
  - intros. ring.
Qed.

Lemma scaled_sum_insert (us : gmap nat SPUser) (user : nat) (u : SPUser) :
  scaled_sum (<[user := u]> us) ==
    scaled_sum us - sp_scaled (default SPUser_new (us !! user)) + sp_scaled u.
Proof.
  destruct (us !! user) as [y |] eqn:E; cbn [from_option id].
  - rewrite <- (insert_delete_eq us).
    rewrite scaled_sum_insert_fresh by apply lookup_delete_eq.
    assert (scaled_sum us == sp_scaled y + scaled_sum (delete user us)) as ->.
    { unfold scaled_sum.
      apply (map_fold_delete Qeq (fun _ u acc => sp_scaled u + acc)); [| | exact E].
      - intros j z a b Eab. now rewrite Eab.
      - intros. ring. }
    ring.
  - rewrite scaled_sum_insert_fresh by exact E. cbn. ring.
Qed.

(** X26. If [sp_scaled_total] equals the sum of the scaled shares of the
    user records, it still does after any call, returned or raised. *)
Theorem scaled_total_is_sum_of_shares (s : State) (o : op) :
  shares_add_up s -> shares_add_up (exec o s).
Proof.
  unfold shares_add_up. intros H.
  destruct o as [p t | d | b | t | t | u a | u a | u | y]; unfold exec.
  - unfold update_from_oracle, _update_px. explore; exact H.
  - unfold mint_ftoken, _update_px. explore; exact H.
  - unfold redeem_ftoken, _update_px. explore; exact H.
  - destruct (protocol_rebalance_decides s t) as [[e ->] | [-> | (px & E & _)]];
      try exact H.
    cbn zeta in E. rewrite E. unfold burn_indexed. fields. exact H.
  - unfold emergency_recapitalization, _update_px. explore; exact H.
  - rewrite sp_deposit_unfolds.
    destruct (_ || _); [exact H |].
    destruct (Qeq_bool _ 0).
    + unfold settled. fields. rewrite scaled_sum_insert. fold (the_user u s).
      cbn [set_sp_index_snap sp_scaled]. rewrite H. ring.
    + unfold deposited. cbn zeta. fields. rewrite scaled_sum_insert.
      fold (the_user u s). cbn [sp_scaled]. rewrite H. ring.
  - rewrite sp_withdraw_unfolds.
    destruct (Qle_bool _ 0); [exact H |].
    destruct (Qltb _ _).
    { unfold settled. fields. rewrite scaled_sum_insert. fold (the_user u s).
      cbn [set_sp_index_snap sp_scaled]. rewrite H. ring. }
    destruct (Qeq_bool _ 0).
    + unfold settled. fields. rewrite scaled_sum_insert. fold (the_user u s).
      cbn [set_sp_index_snap sp_scaled]. rewrite H. ring.
    + unfold withdrawn. cbn zeta. fields. rewrite scaled_sum_insert.
      fold (the_user u s). cbn [sp_scaled]. rewrite H. ring.
  - destruct (sp_claim_core_decides s u) as [(E & _) | [(E & _) | (E & _)]];
      rewrite E; cbn [final].
    + unfold settled. fields. rewrite scaled_sum_insert. fold (the_user u s).
      cbn [set_sp_index_snap sp_scaled]. rewrite H. ring.
    + unfold settled. fields. rewrite scaled_sum_insert. fold (the_user u s).
      cbn [set_sp_index_snap sp_scaled]. rewrite H. ring.
    + unfold claim_paid. cbn zeta.
      destruct (Qltb _ 0); unfold settled; fields; rewrite scaled_sum_insert;
        fold (the_user u s); cbn [set_sp_index_snap sp_scaled]; rewrite H; ring.
  - destruct (sp_index_harvest_decides s y) as [[-> _] | [-> _]]; [exact H |].
    unfold harvest_indexed. fields. exact H.
Qed.

Lemma scaled_total_is_sum_of_shares_witness :
  shares_add_up (exec (OpWithdraw 0 10) scenario_pool).
Proof.
  apply (scaled_total_is_sum_of_shares scenario_pool (OpWithdraw 0 10)).
  vm_compute. reflexivity.
Defined.

(** ** What a burn does to one depositor *)

(** X27. After a rebalance that returns a non-zero burn at the fixed
    NAV, a depositor whose snapshot was at the index keeps the same record,
    has a pooled balance shrunk by the pool-wide factor
    [1 - burned / sp_total_f], has accrued the share
    [sp_scaled * indexed / sp_scaled_total] of the indexed SUI, and that
    share is worth, at the oracle price, exactly the fTokens burned from the
    depositor at NAV. *)
Theorem rebalance_pays_each_depositor_at_nav
        (s s' : State) (target_cr burned indexed : Q) (user : nat) :
  protocol_rebalance_L3_to_target target_cr s = Returned (burned, indexed) s' ->
  ~ burned == 0 ->
  Pf s = PF_FIXED ->
  0 <= sp_scaled (the_user user s) ->
  sp_index_snap (the_user user s) = sp_index_sui_scaled s ->
  the_user user s' = the_user user s /\
  sp_scaled (the_user user s) * sp_scale s' ==
    sp_scaled (the_user user s) * sp_scale s * (1 - burned / sp_total_f s) /\
  accrued user s' == sp_scaled (the_user user s) * (indexed / sp_scaled_total s) /\
  accrued user s' * p_sui s ==
    (sp_scaled (the_user user s) * sp_scale s -
     sp_scaled (the_user user s) * sp_scale s') * Pf s.
Proof.
  intros H Hb Hpf Hsig Hsnap. pose proof EPS_pos as He.
  destruct (protocol_rebalance_decides s target_cr)
    as [[e E] | [E | (px & E & Hp & Hf & Ht & Hc & Hs)]];
    rewrite E in H; inversion H; subst; clear H.
  { exfalso. apply Hb. reflexivity. }
  clear E. set (f_burn := requested_burn target_cr s) in *.
  set (burned := capped_burn f_burn s) in *.
  destruct (shrink_factor s f_burn Ht Hc) as (Em & _ & _). fold burned in Em.
  set (indexed := f_burn * Pf s / p_sui s / f_burn * burned).
  assert (indexed == burned / p_sui s) as Ei.
  { subst indexed. rewrite Hpf. unfold PF_FIXED. field.
    split; intros Z; rewrite Z in *; lra. }
  assert (0 < indexed) as Hi0.
  { rewrite Ei. apply Qlt_shift_div_l; lra. }
  clearbody indexed. clearbody burned. clearbody f_burn.
  assert (0 <= indexed / sp_scaled_total s) as Hd by (apply Qle_shift_div_l; lra).
  assert (the_user user
            (set_Px px (set_Nf (Nf s - burned) (burn_indexed burned indexed s))) =
          the_user user s) as Eu by reflexivity.
  assert (accrued user
            (set_Px px (set_Nf (Nf s - burned) (burn_indexed burned indexed s))) ==
          sp_scaled (the_user user s) * (indexed / sp_scaled_total s)) as Ea.
  { unfold accrued. rewrite Eu. unfold burn_indexed. fields. rewrite Hsnap.
    assert (sp_index_sui_scaled s + indexed / sp_scaled_total s - sp_index_sui_scaled s
            == indexed / sp_scaled_total s) as Ed by ring.
    rewrite pymax_0_nonneg; [now rewrite Ed |]. rewrite Ed. nra. }
  assert (sp_scale (set_Px px (set_Nf (Nf s - burned) (burn_indexed burned indexed s))) =
          sp_scale s * (1 - burned / sp_total_f s)) as Es.
  { unfold burn_indexed. fields. now rewrite Em. }
  split; [exact Eu |]. rewrite Es.
  split; [ring |]. split; [exact Ea |].
  rewrite Ea.
  assert (sp_scaled (the_user user s) * (indexed / sp_scaled_total s) ==
          sp_scaled (the_user user s) * (burned / p_sui s / sp_scaled_total s)) as ->
      by (now rewrite Ei).
  rewrite Hpf. unfold sp_total_f in *. unfold PF_FIXED. field.
  repeat split; intros Z; rewrite Z in *; lra.
Qed.

Lemma rebalance_pays_each_depositor_at_nav_witness :
  let s := scenario_pool in
  let s' := exec (OpRebalance (4 # 3)) scenario_pool in
  let burned := capped_burn (requested_burn (4 # 3) s) s in
  let indexed :=
    requested_burn (4 # 3) s * Pf s / p_sui s / requested_burn (4 # 3) s * burned in
  the_user 0 s' = the_user 0 s /\
  sp_scaled (the_user 0 s) * sp_scale s' ==
    sp_scaled (the_user 0 s) * sp_scale s * (1 - burned / sp_total_f s) /\
  accrued 0 s' == sp_scaled (the_user 0 s) * (indexed / sp_scaled_total s) /\
  accrued 0 s' * p_sui s ==
    (sp_scaled (the_user 0 s) * sp_scale s - sp_scaled (the_user 0 s) * sp_scale s') * Pf s.
Proof.
  apply (rebalance_pays_each_depositor_at_nav scenario_pool
           (exec (OpRebalance (4 # 3)) scenario_pool) (4 # 3));
    vm_compute; (reflexivity || discriminate).
Defined.

(** ** Minting and redeeming on binary64 numbers *)

(** X29. On binary64 numbers a mint is not always redeemable: at price 3
    and the fixed NAV, a deposit of 0.1 SUI into an empty reserve issues
    0.30000000000000004 fTokens, whose redemption asks for
    0.10000000000000002 SUI, more than the 0.1 in reserve, and raises
    "insufficient reserve net of SP obligations". *)
Theorem mint_then_redeem_raises_in_binary64 :
  let c := F64.mkCore 0 0 1 0 3 0 in
  exists issued c1,
    F64.mint_ftoken 0.1 c = F64.Done issued c1 /\
    issued = 0.30000000000000004%float /\
    F64.reserve_sui c1 = 0.1%float /\
    (issued * F64.Pf c1 / F64.p_sui c1)%float = 0.10000000000000002%float /\
    F64.redeem_ftoken issued c1 = F64.Failed InsufficientReserveNet c1.
Proof.
  eexists _, _. split; [vm_compute; reflexivity |].
  repeat split; vm_compute; reflexivity.
Qed.
